(** * The SDUI layout renderer of everything-app

    A shallow embedding of the server-driven UI engine:
      - shared/sdui.types.ts                         (the data model)
      - client/src/components/SDUI/SectionRenderer.tsx
      - client/src/components/SDUI/LayoutRenderer.tsx
      - client/src/components/SDUI/ActionBar.tsx
      - client/src/components/SDUI/sections/CardGrid.tsx, ListSection.tsx,
        RecommendationsSection.tsx

    A React function component is a function from its props to an element
    tree.  The components above call no hook and read no module variable, so
    each is embedded as a Rocq function from props to a tree of [VNode]s. *)

From Stdlib Require Import List String Ascii ZArith Bool Lia.
From Stdlib Require Import DecimalString.
Import ListNotations.
Local Open Scope string_scope.
Local Open Scope list_scope.

Set Implicit Arguments.

(** ** JavaScript values the renderer looks at *)

(** [unknown]: the opaque values of payloads, metadata and the data bag. *)
#[local] Unset Elimination Schemes.
Inductive Json : Type :=
| JNull
| JBool (b : bool)
| JNum (z : Z)
| JStr (s : string)
| JArr (l : list Json)
| JObj (fs : list (string * Json)).
#[local] Set Elimination Schemes.

(** [Record<string, unknown>]. *)
Definition Bag : Type := list (string * Json).

(** [number], restricted to NaN and the integers, a column count being one.
    The integers meant are those a double holds exactly and prints in full
    (below 2^53 in absolute value); fractions and infinities are left out. *)
Inductive number : Type :=
| NaN
| Int (z : Z).

(** Truthiness, as [&&], [||] and [if] test it. *)
Definition truthy_number (n : number) : bool :=
  match n with
  | NaN => false
  | Int z => negb (Z.eqb z 0)
  end.

Definition truthy_string (s : string) : bool :=
  negb (String.eqb s "").

Definition truthy_opt {A : Type} (t : A -> bool) (o : option A) : bool :=
  match o with
  | Some a => t a
  | None => false
  end.

(** [a || b] on an optional left operand. *)
Definition or_default {A : Type} (t : A -> bool) (o : option A) (d : A) : A :=
  match o with
  | Some a => if t a then a else d
  | None => d
  end.

(** A template literal's [${n}]: the decimal numeral, which is what
    JavaScript prints for an integer below 2^53 in absolute value.  Beyond
    that JavaScript rounds and, from 10^21 on, uses an exponent; this
    function does not follow it there. *)
Definition number_to_string (n : number) : string :=
  match n with
  | NaN => "NaN"
  | Int z => NilZero.string_of_int (Z.to_int z)
  end.

(** ** shared/sdui.types.ts

    String-literal unions are erased at run time: a config is JSON from the
    server, so their fields are strings here and the enumerations are kept
    beside them. *)

Inductive SectionType : Type :=
| header | hero | cards | list_ | timeline | calendar | map_ | form
| gallery | stats | alerts | recommendations | footer.

Definition SectionType_values : list SectionType :=
  [header; hero; cards; list_; timeline; calendar; map_; form;
   gallery; stats; alerts; recommendations; footer].

(** The string each member of the union is. *)
Definition SectionType_tag (t : SectionType) : string :=
  match t with
  | header => "header"
  | hero => "hero"
  | cards => "cards"
  | list_ => "list"
  | timeline => "timeline"
  | calendar => "calendar"
  | map_ => "map"
  | form => "form"
  | gallery => "gallery"
  | stats => "stats"
  | alerts => "alerts"
  | recommendations => "recommendations"
  | footer => "footer"
  end.

Record ContentAction : Type := mkContentAction {
  ca_id : string;
  ca_label : string;
  ca_type : string;        (* "primary" | "secondary" | "tertiary" | "destructive" *)
  ca_action : string;
  ca_payload : option Bag;
  ca_condition : option string
}.

Record ContentItem : Type := mkContentItem {
  item_id : string;
  item_title : string;
  item_subtitle : option string;
  item_description : option string;
  item_image : option string;
  item_icon : option string;
  item_badge : option string;
  item_metadata : option Bag;
  item_actions : option (list ContentAction)
}.

Record DataSource : Type := mkDataSource {
  ds_type : string;        (* "api" | "local" | "computed" *)
  ds_endpoint : option string;
  ds_method : option string;
  ds_params : option Bag;
  ds_transform : option string;
  ds_cache : option (number * string)   (* { ttl, key } *)
}.

Record SectionContent : Type := mkSectionContent {
  content_items : option (list ContentItem);
  content_template : option string;
  content_dataSource : option DataSource
}.

Record VisibilityRule : Type := mkVisibilityRule {
  vis_condition : string;  (* "always" | "authenticated" | "anonymous" | "custom" *)
  vis_customRule : option string
}.

Record LayoutAction : Type := mkLayoutAction {
  act_id : string;
  act_label : string;
  act_icon : option string;
  act_type : string;       (* "primary" | "secondary" | "tertiary" *)
  act_action : string;
  act_payload : option Bag;
  act_position : option string  (* "top" | "bottom" | "floating" *)
}.

#[local] Unset Elimination Schemes.
Inductive LayoutSection : Type := mkLayoutSection {
  sec_id : string;
  sec_type : string;       (* SectionType *)
  sec_title : option string;
  sec_subtitle : option string;
  sec_content : option SectionContent;
  sec_layout : option string;   (* "grid" | "list" | "carousel" | "timeline" | "map" *)
  sec_columns : option number;
  sec_spacing : option string;  (* "compact" | "normal" | "spacious" *)
  sec_visibility : option VisibilityRule;
  sec_children : option (list LayoutSection)
}.
#[local] Set Elimination Schemes.

Record LayoutConfig : Type := mkLayoutConfig {
  cfg_mode : string;       (* LayoutMode *)
  cfg_title : string;
  cfg_description : option string;
  cfg_sections : list LayoutSection;
  cfg_actions : option (list LayoutAction);
  cfg_metadata : option Bag
}.

(** The nested sections of a section: none when [children] is absent. *)
Definition children_of (s : LayoutSection) : list LayoutSection :=
  match sec_children s with
  | Some l => l
  | None => []
  end.

(** Induction over a section tree, with the hypothesis on every child. *)
Section LayoutSection_ind.
Variable P : LayoutSection -> Prop.
Hypothesis step : forall s, Forall P (children_of s) -> P s.

Fixpoint LayoutSection_ind (s : LayoutSection) : P s :=
  step s
    (match s as s0 return Forall P (children_of s0) with
     | mkLayoutSection _ _ _ _ _ _ _ _ _ ch =>
         match ch as c return
               Forall P (match c with Some l => l | None => [] end) with
         | Some l =>
             (fix go (l : list LayoutSection) : Forall P l :=
                match l with
                | [] => Forall_nil P
                | c :: r => Forall_cons c (LayoutSection_ind c) (go r)
                end) l
         | None => Forall_nil P
         end
     end).
End LayoutSection_ind.

(** ** Element trees *)

Section Renderer.

(** The host application's callback,
    [(actionId: string, payload?: Record<string, unknown>) => void].
    The renderer stores and forwards it and never calls it while rendering. *)
Context {Handler : Type}.

(** A prop or attribute of an element.  [AClick h i p] is the closure
    [() => h?.(i, p)]. *)
Inductive AttrVal : Type :=
| AStr (s : string)
| AClick (h : option Handler) (actionId : string) (payload : option Bag).

(** The section sub-renderers SectionRenderer.tsx imports. *)
Inductive Component : Type :=
| cHeaderSection | cHeroSection | cCardGrid | cListSection
| cTimelineSection | cCalendarSection | cMapSection | cAlertsSection
| cRecommendationsSection.

(** The props the dispatcher hands a sub-renderer; an absent or [undefined]
    prop is [None]. *)
Record Props : Type := mkProps {
  p_title : option string;
  p_items : option (list ContentItem);
  p_columns : option number;
  p_spacing : option string;
  p_data : option Bag;
  p_onAction : option Handler
}.

(** What a component returns.  [Elem] is a DOM element or a primitive of the
    UI kit ([Button], [Card], ...); [Sub c p] is the element [<c {...p} />]
    of a section sub-renderer; [Nothing] is a child that renders nothing
    ([false], [undefined], the empty string).  [key] is kept where the
    source sets it on an [Elem]. *)
#[local] Unset Elimination Schemes.
Inductive VNode : Type :=
| Elem (tag : string) (attrs : list (string * AttrVal)) (kids : list VNode)
| Text (s : string)
| Sub (c : Component) (p : Props)
| Nothing.
#[local] Set Elimination Schemes.

Definition className (s : string) : string * AttrVal := ("className", AStr s).

(** [{s && node}] for an optional string [s]. *)
Definition when_string (o : option string) (node : string -> VNode) : VNode :=
  match o with
  | Some s => if truthy_string s then node s else Nothing
  | None => Nothing
  end.

(** [{l && l.length > 0 && node}] for an optional array [l]. *)
Definition when_nonempty {A : Type} (o : option (list A))
           (node : list A -> VNode) : VNode :=
  match o with
  | Some (a :: r) => node (a :: r)
  | Some [] => Nothing
  | None => Nothing
  end.

(** ** sections/CardGrid.tsx *)

Definition CardGrid_button (onAction : option Handler) (action : ContentAction)
  : VNode :=
  Elem "Button"
    [("key", AStr (ca_id action));
     ("variant",
      AStr (if String.eqb (ca_type action) "primary" then "default"
            else if String.eqb (ca_type action) "tertiary" then "ghost"
            else ca_type action));
     ("size", AStr "sm");
     ("onClick", AClick onAction (ca_id action) (ca_payload action))]
    [Text (ca_label action)].

Definition CardGrid_card (onAction : option Handler) (item : ContentItem)
  : VNode :=
  Elem "Card"
    [("key", AStr (item_id item));
     className "hover:shadow-lg transition-shadow"]
    [when_string (item_image item) (fun image =>
       Elem "div" [className "h-48 bg-muted overflow-hidden rounded-t-lg"]
         [Elem "img" [("src", AStr image); ("alt", AStr (item_title item));
                      className "w-full h-full object-cover"] []]);
     Elem "CardHeader" []
       [Elem "div" [className "flex items-start justify-between gap-2"]
          [Elem "div" [className "flex-1"]
             [Elem "CardTitle" [] [Text (item_title item)];
              when_string (item_subtitle item) (fun subtitle =>
                Elem "CardDescription" [] [Text subtitle])];
           when_string (item_badge item) (fun badge =>
             Elem "span"
               [className "px-2 py-1 bg-primary/10 text-primary text-xs font-semibold rounded-full whitespace-nowrap"]
               [Text badge])]];
     when_string (item_description item) (fun description =>
       Elem "CardContent" []
         [Elem "p" [className "text-sm text-muted-foreground"]
            [Text description]]);
     when_nonempty (item_actions item) (fun actions =>
       Elem "CardContent" [className "pt-0"]
         [Elem "div" [className "flex gap-2"]
            (map (CardGrid_button onAction) actions)])].

Definition CardGrid_gridClass (columns : number) (spacing : string) : string :=
  ("grid grid-cols-1 md:grid-cols-2 lg:grid-cols-" ++ number_to_string columns
   ++ " gap-"
   ++ (if String.eqb spacing "compact" then "2"
       else if String.eqb spacing "spacious" then "8" else "4"))%string.

(** [columns = 3] and [spacing = "normal"] are default parameters: they
    apply when the prop is [undefined] only.  [items.map] on an absent
    [items] is a TypeError: [None]. *)
Definition CardGrid (p : Props) : option VNode :=
  let columns := match p_columns p with Some c => c | None => Int 3 end in
  let spacing := match p_spacing p with Some s => s | None => "normal" end in
  match p_items p with
  | None => None
  | Some items =>
      Some (Elem "div" [className (CardGrid_gridClass columns spacing)]
              (map (CardGrid_card (p_onAction p)) items))
  end.

(** ** sections/ListSection.tsx *)

Definition ListSection_button (onAction : option Handler)
           (action : ContentAction) : VNode :=
  Elem "Button"
    [("key", AStr (ca_id action));
     ("variant", AStr "outline");
     ("size", AStr "sm");
     ("onClick", AClick onAction (ca_id action) (ca_payload action))]
    [Text (ca_label action)].

Definition ListSection_row (onAction : option Handler) (spacingClass : string)
           (item : ContentItem) : VNode :=
  Elem "div"
    [("key", AStr (item_id item));
     className ("p-4 border border-border rounded-lg hover:bg-muted/50 transition-colors "
                ++ spacingClass)%string]
    [Elem "div" [className "flex items-start justify-between gap-4"]
       [Elem "div" [className "flex-1"]
          [Elem "h3" [className "font-semibold"] [Text (item_title item)];
           when_string (item_subtitle item) (fun subtitle =>
             Elem "p" [className "text-sm text-muted-foreground"]
               [Text subtitle]);
           when_string (item_description item) (fun description =>
             Elem "p" [className "text-sm mt-1"] [Text description])];
        when_string (item_badge item) (fun badge =>
          Elem "span"
            [className "px-2 py-1 bg-primary/10 text-primary text-xs font-semibold rounded-full"]
            [Text badge])];
     when_nonempty (item_actions item) (fun actions =>
       Elem "div" [className "flex gap-2 mt-3"]
         (map (ListSection_button onAction) actions))].

Definition ListSection (p : Props) : option VNode :=
  let spacing := match p_spacing p with Some s => s | None => "normal" end in
  let spacingClass :=
    if String.eqb spacing "compact" then "py-2"
    else if String.eqb spacing "spacious" then "py-4" else "py-3" in
  match p_items p with
  | None => None
  | Some items =>
      Some (Elem "div" [className "space-y-2"]
              (map (ListSection_row (p_onAction p) spacingClass) items))
  end.

(** ** sections/RecommendationsSection.tsx *)

Definition RecommendationsSection (p : Props) : option VNode :=
  Some (Elem "div" [className "p-4 bg-muted/50 rounded-lg border border-border"]
          [when_string (p_title p) (fun title =>
             Elem "h3" [className "font-semibold mb-2"] [Text title]);
           Elem "p" [className "text-sm text-muted-foreground"]
             [Text "RecommendationsSection placeholder"]]).

(** ** ActionBar.tsx *)

Definition ActionBar_button (onAction : option Handler) (action : LayoutAction)
  : VNode :=
  Elem "Button"
    [("key", AStr (act_id action));
     ("variant",
      AStr (if String.eqb (act_type action) "primary" then "default"
            else "outline"));
     ("onClick", AClick onAction (act_id action) (act_payload action));
     className "shadow-lg"]
    [Text (act_label action)].

Definition ActionBar (actions : list LayoutAction) (onAction : option Handler)
  : VNode :=
  Elem "div" [className "fixed bottom-6 right-6 flex gap-2 flex-col items-end"]
    (map (ActionBar_button onAction) actions).

(** ** SectionRenderer.tsx *)

(** [section.content?.items || []]: an array is truthy, also when empty. *)
Definition items_or_empty (section : LayoutSection) : list ContentItem :=
  match sec_content section with
  | Some content =>
      match content_items content with
      | Some items => items
      | None => []
      end
  | None => []
  end.

(** [<div> ... Unknown section type: {type} ... </div>], the [default:]
    branch of the switch. *)
Definition placeholder (type : string) : VNode :=
  Elem "div" [className "p-4 bg-muted rounded-lg"]
    [Elem "p" [className "text-muted-foreground"]
       [Text "Unknown section type: "; Text type]].

(** The closure [renderSectionByType] of [SectionRenderer]; [section],
    [onAction] and [data] are the variables it captures. *)
Definition renderSectionByType (section : LayoutSection)
           (onAction : option Handler) (data : option Bag) (type : string)
  : VNode :=
  if String.eqb type "header" then
    Sub cHeaderSection
      {| p_title := sec_title section; p_items := Some [];
         p_columns := None; p_spacing := None; p_data := None;
         p_onAction := onAction |}
  else if String.eqb type "hero" then
    Sub cHeroSection
      {| p_title := sec_title section;
         p_items := Some (items_or_empty section);
         p_columns := None; p_spacing := None; p_data := None;
         p_onAction := onAction |}
  else if String.eqb type "cards" then
    Sub cCardGrid
      {| p_title := None;
         p_items := Some (items_or_empty section);
         p_columns := Some (or_default truthy_number (sec_columns section) (Int 3));
         p_spacing := Some (or_default truthy_string (sec_spacing section) "normal");
         p_data := None;
         p_onAction := onAction |}
  else if String.eqb type "list" then
    Sub cListSection
      {| p_title := None;
         p_items := Some (items_or_empty section);
         p_columns := None;
         p_spacing := Some (or_default truthy_string (sec_spacing section) "normal");
         p_data := None;
         p_onAction := onAction |}
  else if String.eqb type "timeline" then
    Sub cTimelineSection
      {| p_title := None;
         p_items := Some (items_or_empty section);
         p_columns := None; p_spacing := None; p_data := None;
         p_onAction := onAction |}
  else if String.eqb type "calendar" then
    Sub cCalendarSection
      {| p_title := sec_title section; p_items := None;
         p_columns := None; p_spacing := None; p_data := data;
         p_onAction := onAction |}
  else if String.eqb type "map" then
    Sub cMapSection
      {| p_title := sec_title section; p_items := None;
         p_columns := None; p_spacing := None; p_data := data;
         p_onAction := onAction |}
  else if String.eqb type "alerts" then
    Sub cAlertsSection
      {| p_title := None;
         p_items := Some (items_or_empty section);
         p_columns := None; p_spacing := None; p_data := None;
         p_onAction := onAction |}
  else if String.eqb type "recommendations" then
    Sub cRecommendationsSection
      {| p_title := None;
         p_items := Some (items_or_empty section);
         p_columns := None; p_spacing := None; p_data := None;
         p_onAction := onAction |}
  else placeholder type.

(** [o === s] for an optional string [o]. *)
Definition is_string (o : option string) (s : string) : bool :=
  match o with
  | Some x => String.eqb x s
  | None => false
  end.

Definition containerClass (section : LayoutSection) : string :=
  if is_string (sec_spacing section) "compact" then "py-2"
  else if is_string (sec_spacing section) "spacious" then "py-12"
  else "py-6".

(** [{section.title && section.type !== "header" && section.type !== "hero"
     && <h2 ...>{section.title}</h2>}]. *)
Definition section_heading (section : LayoutSection) : VNode :=
  when_string (sec_title section) (fun title =>
    if negb (String.eqb (sec_type section) "header")
       && negb (String.eqb (sec_type section) "hero")
    then Elem "h2" [className "text-3xl font-bold mb-6"] [Text title]
    else Nothing).

(** The component.  Each [<SectionRenderer key={child.id} section={child}
    ... />] among the children is rendered in place, as React does. *)
Fixpoint SectionRenderer (onAction : option Handler) (data : option Bag)
         (section : LayoutSection) {struct section} : VNode :=
  Elem "section"
    [("id", AStr (sec_id section));
     className (containerClass section ++ " "
                ++ (if is_string (sec_layout section) "map" then ""
                    else "container mx-auto px-4"))%string]
    [section_heading section;
     renderSectionByType section onAction data (sec_type section);
     match sec_children section with
     | Some (child :: rest) =>
         Elem "div" [className "mt-6 space-y-6"]
           (map (SectionRenderer onAction data) (child :: rest))
     | Some [] => Nothing
     | None => Nothing
     end].

(** [{section.children && section.children.length > 0 && <div ...>...</div>}],
    the last child of the section element, read off [children_of]. *)
Definition children_part (onAction : option Handler) (data : option Bag)
           (section : LayoutSection) : VNode :=
  match children_of section with
  | [] => Nothing
  | l => Elem "div" [className "mt-6 space-y-6"]
           (map (SectionRenderer onAction data) l)
  end.

(** ** LayoutRenderer.tsx *)

Definition loading_view : VNode :=
  Elem "div" [className "flex items-center justify-center min-h-screen"]
    [Elem "div"
       [className "animate-spin rounded-full h-12 w-12 border-b-2 border-primary"]
       []].

Definition error_view (error : string) : VNode :=
  Elem "div"
    [className "min-h-screen flex items-center justify-center bg-destructive/10"]
    [Elem "div" [className "text-center"]
       [Elem "h2" [className "text-2xl font-bold text-destructive mb-2"]
          [Text "Error"];
        Elem "p" [className "text-muted-foreground"] [Text error]]].

Definition is_floating (a : LayoutAction) : bool :=
  is_string (act_position a) "floating".

(** The return of the last branch; [<ActionBar ... />] is rendered in
    place. *)
Definition layout_view (config : LayoutConfig) (onAction : option Handler)
           (data : option Bag) : VNode :=
  Elem "div" [className "min-h-screen bg-background"]
    [Elem "div" [className "space-y-0"]
       (map (SectionRenderer onAction data) (cfg_sections config));
     when_nonempty (cfg_actions config) (fun actions =>
       ActionBar (filter is_floating actions) onAction)].

Definition LayoutRenderer (config : LayoutConfig) (onAction : option Handler)
           (data : option Bag) (loading : option bool) (error : option string)
  : VNode :=
  if truthy_opt (fun b : bool => b) loading then loading_view
  else
    match error with
    | Some e =>
        if truthy_string e then error_view e
        else layout_view config onAction data
    | None => layout_view config onAction data
    end.

(** ** Reading an element tree *)

(** Every node of a tree, in document order. *)
Fixpoint flatten (v : VNode) : list VNode :=
  v :: match v with
       | Elem _ _ kids =>
           (fix go (l : list VNode) : list VNode :=
              match l with
              | [] => []
              | k :: r => flatten k ++ go r
              end) kids
       | Text _ => []
       | Sub _ _ => []
       | Nothing => []
       end.

Definition kids_of (v : VNode) : list VNode :=
  match v with
  | Elem _ _ kids => kids
  | _ => []
  end.

Definition attr (name : string) (attrs : list (string * AttrVal))
  : option AttrVal :=
  match find (fun kv => String.eqb (fst kv) name) attrs with
  | Some kv => Some (snd kv)
  | None => None
  end.

(** The [id] of a [<section>] element. *)
Definition section_id (n : VNode) : list string :=
  match n with
  | Elem tag attrs _ =>
      if String.eqb tag "section" then
        match attr "id" attrs with
        | Some (AStr i) => [i]
        | _ => []
        end
      else []
  | _ => []
  end.

(** The ids of the [<section>] elements of a tree, in document order: one
    per rendered section. *)
Definition sectionIds (v : VNode) : list string :=
  flat_map section_id (flatten v).

Definition is_button (n : VNode) : bool :=
  match n with
  | Elem tag _ _ => String.eqb tag "Button"
  | _ => false
  end.

(** The [Button]s of a tree, in document order. *)
Definition buttons (v : VNode) : list VNode :=
  filter is_button (flatten v).

(** The action id a [Button] fires. *)
Definition click_id (n : VNode) : list string :=
  match n with
  | Elem _ attrs _ =>
      match attr "onClick" attrs with
      | Some (AClick _ i _) => [i]
      | _ => []
      end
  | _ => []
  end.

Definition buttonIds (v : VNode) : list string :=
  flat_map click_id (buttons v).

(** The text nodes of a tree, in document order. *)
Definition texts (v : VNode) : list string :=
  flat_map (fun n => match n with Text s => [s] | _ => [] end) (flatten v).

(** The sub-renderer an element selects, if it is one. *)
Definition selected (v : VNode) : option Component :=
  match v with
  | Sub c _ => Some c
  | _ => None
  end.

(** [<h2 ...>{t}</h2>]. *)
Definition is_h2 (t : string) (n : VNode) : bool :=
  match n with
  | Elem tag _ [Text s] => String.eqb tag "h2" && String.eqb s t
  | _ => false
  end.

(** The ids of a section tree in document order: the section, then its
    children, each with its own subtree. *)
Fixpoint preorder (s : LayoutSection) : list string :=
  sec_id s ::
  match sec_children s with
  | Some l =>
      (fix go (l : list LayoutSection) : list string :=
         match l with
         | [] => []
         | c :: r => preorder c ++ go r
         end) l
  | None => []
  end.

(** ** The visibility contract, as the specification words it

    The renderer has no such code; this is what section 4.3 of the
    specification asks for, to be compared with [SectionRenderer]. *)

(** [auth] is the caller's auth state, [custom] the caller's predicate over
    [customRule].  A section without a rule is visible. *)
Definition spec_visible (auth : bool) (custom : option string -> bool)
           (s : LayoutSection) : bool :=
  match sec_visibility s with
  | None => true
  | Some rule =>
      if String.eqb (vis_condition rule) "always" then true
      else if String.eqb (vis_condition rule) "authenticated" then auth
      else if String.eqb (vis_condition rule) "anonymous" then negb auth
      else if String.eqb (vis_condition rule) "custom"
           then custom (vis_customRule rule)
      else true
  end.

(** The sections the contract renders: a hidden section is skipped with
    its whole subtree. *)
Fixpoint spec_rendered_ids (auth : bool) (custom : option string -> bool)
         (s : LayoutSection) : list string :=
  if spec_visible auth custom s then
    sec_id s ::
    match sec_children s with
    | Some l =>
        (fix go (l : list LayoutSection) : list string :=
           match l with
           | [] => []
           | c :: r => spec_rendered_ids auth custom c ++ go r
           end) l
    | None => []
    end
  else [].

(** Replace the visibility rule of a section and of every section below
    it. *)
Fixpoint set_visibility (rule : LayoutSection -> option VisibilityRule)
         (s : LayoutSection) : LayoutSection :=
  mkLayoutSection (sec_id s) (sec_type s) (sec_title s) (sec_subtitle s)
    (sec_content s) (sec_layout s) (sec_columns s) (sec_spacing s)
    (rule s)
    (match sec_children s with
     | Some l => Some (map (set_visibility rule) l)
     | None => None
     end).

End Renderer.

(** The sub-renderer the switch of [renderSectionByType] has a [case] for;
    [None] for the members of [SectionType] that reach [default:]. *)
Definition sub_renderer_case (t : SectionType) : option Component :=
  match t with
  | header => Some cHeaderSection
  | hero => Some cHeroSection
  | cards => Some cCardGrid
  | list_ => Some cListSection
  | timeline => Some cTimelineSection
  | calendar => Some cCalendarSection
  | map_ => Some cMapSection
  | alerts => Some cAlertsSection
  | recommendations => Some cRecommendationsSection
  | form | gallery | stats | footer => None
  end.

(** [content] is absent, or [content.items] is. *)
Definition no_items (s : LayoutSection) : Prop :=
  sec_content s = None \/
  exists content, sec_content s = Some content /\ content_items content = None.

(** [config.actions], empty when absent. *)
Definition actions_of (config : LayoutConfig) : list LayoutAction :=
  match cfg_actions config with
  | Some l => l
  | None => []
  end.

(** [config] with other sections. *)
Definition with_sections (config : LayoutConfig) (l : list LayoutSection)
  : LayoutConfig :=
  mkLayoutConfig (cfg_mode config) (cfg_title config) (cfg_description config)
    l (cfg_actions config) (cfg_metadata config).

(** ** Sample inputs *)

(** The samples pass no callback; the type of one that is never there. *)
Definition NoHandler : Type := Empty_set.

Definition no_callback : option NoHandler := None.

(** [{ id, type }]. *)
Definition bare_section (id type : string) : LayoutSection :=
  mkLayoutSection id type None None None None None None None None.

(** [{ id, type, title }]. *)
Definition titled_section (id type title : string) : LayoutSection :=
  mkLayoutSection id type (Some title) None None None None None None None.

(** [{ id, label, type: "primary", action, position }]. *)
Definition action_at (id position : string) : LayoutAction :=
  mkLayoutAction id id None "primary" id None (Some position).

Definition three_actions : list LayoutAction :=
  [action_at "a" "top"; action_at "b" "floating"; action_at "c" "bottom"].

Definition sample_config : LayoutConfig :=
  mkLayoutConfig "itinerary" "Paris Trip" None
    [mkLayoutSection "s1" "cards" (Some "Sights") None None None None None None
       (Some [bare_section "s1a" "list"; bare_section "s1b" "timeline"]);
     bare_section "s2" "map";
     bare_section "s3" "header"]
    (Some three_actions) None.

(** A section for signed-in users, with one child. *)
Definition members_section : LayoutSection :=
  mkLayoutSection "members" "cards" None None None None None None
    (Some (mkVisibilityRule "authenticated" None))
    (Some [bare_section "perks" "list"]).

(** The scenario of the specification: one card and a floating Save. *)
Definition eiffel_tower : ContentItem :=
  mkContentItem "i1" "Eiffel Tower" None None None None None None None.

Definition paris_config : LayoutConfig :=
  mkLayoutConfig "itinerary" "Paris Trip" None
    [mkLayoutSection "s1" "cards" None None
       (Some (mkSectionContent (Some [eiffel_tower]) None None))
       None None None None None]
    (Some [mkLayoutAction "save" "Save" None "primary" "save_trip" None
             (Some "floating")])
    None.

(** [{ id: "grid", type: "cards", columns: 0, spacing: "" }]. *)
Definition zero_columns_section : LayoutSection :=
  mkLayoutSection "grid" "cards" None None None None (Some (Int 0)) (Some "")
    None None.

(** ** More readings of an element tree *)

Section Observations.

Context {Handler : Type}.

(** What [f] reads at every node of a tree, in document order. *)
Definition observe {A : Type} (f : @VNode Handler -> list A) (v : VNode)
  : list A :=
  flat_map f (flatten v).

Definition sub_of (n : @VNode Handler) : list (Component * Props) :=
  match n with
  | Sub c p => [(c, p)]
  | _ => []
  end.

Definition text_of (n : @VNode Handler) : list string :=
  match n with
  | Text s => [s]
  | _ => []
  end.

(** The sub-renderer elements of a tree, in document order. *)
Definition subs (v : @VNode Handler) : list (Component * Props) :=
  observe sub_of v.

(** The closure behind [onClick]: the callback, the action id and the
    payload it will be called with. *)
Definition click_of (n : @VNode Handler)
  : list (option Handler * string * option Bag) :=
  match n with
  | Elem _ attrs _ =>
      match attr "onClick" attrs with
      | Some (AClick h i p) => [(h, i, p)]
      | _ => []
      end
  | _ => []
  end.

(** Every [onClick] of a tree, in document order. *)
Definition clicks (v : @VNode Handler)
  : list (option Handler * string * option Bag) :=
  observe click_of v.

(** [src] and [alt] of an [<img>]. *)
Definition image_of (n : @VNode Handler) : list (string * string) :=
  match n with
  | Elem tag attrs _ =>
      if String.eqb tag "img" then
        match attr "src" attrs, attr "alt" attrs with
        | Some (AStr src), Some (AStr alt) => [(src, alt)]
        | _, _ => []
        end
      else []
  | _ => []
  end.

Definition images (v : @VNode Handler) : list (string * string) :=
  observe image_of v.

(** The [key] of an element. *)
Definition key_of (n : @VNode Handler) : list string :=
  match n with
  | Elem _ attrs _ =>
      match attr "key" attrs with
      | Some (AStr k) => [k]
      | _ => []
      end
  | _ => []
  end.

(** Any [<h2>]. *)
Definition is_heading (n : @VNode Handler) : bool :=
  match n with
  | Elem tag _ _ => String.eqb tag "h2"
  | _ => false
  end.

End Observations.

(** An optional string as [{s && ...}] shows it: not when absent or empty. *)
Definition shown (o : option string) : list string :=
  match o with
  | Some s => if truthy_string s then [s] else []
  | None => []
  end.

(** [item.actions], empty when absent. *)
Definition actions_of_item (item : ContentItem) : list ContentAction :=
  match item_actions item with
  | Some l => l
  | None => []
  end.

(** The sections of a section tree in document order. *)
Fixpoint preorder_sections (s : LayoutSection) : list LayoutSection :=
  s ::
  match sec_children s with
  | Some l =>
      (fix go (l : list LayoutSection) : list LayoutSection :=
         match l with
         | [] => []
         | c :: r => preorder_sections c ++ go r
         end) l
  | None => []
  end.

(** A section cut down to what [SectionRenderer] reads of it: id, type,
    title, [content.items], layout, columns, spacing and the children (an
    empty array as an absent one), at every depth. *)
Fixpoint rendered_fields (s : LayoutSection) : LayoutSection :=
  mkLayoutSection (sec_id s) (sec_type s) (sec_title s) None
    (Some (mkSectionContent (Some (items_or_empty s)) None None))
    (sec_layout s) (sec_columns s) (sec_spacing s) None
    (match sec_children s with
     | Some (c :: r) => Some (map rendered_fields (c :: r))
     | Some [] => None
     | None => None
     end).

(** [data] reaches the calendar and the map only. *)
Definition takes_data (c : Component) : bool :=
  match c with
  | cCalendarSection | cMapSection => true
  | _ => false
  end.

(** More sample inputs. *)
Definition book_action : ContentAction :=
  mkContentAction "book" "Book" "primary" "book_ticket"
    (Some [("museum", JStr "louvre")]) None.

Definition louvre : ContentItem :=
  mkContentItem "i2" "Louvre" (Some "") (Some "Closed on Tuesdays")
    (Some "/img/louvre.jpg") None (Some "Art") None (Some [book_action]).

(** [{ items: [eiffel_tower, louvre] }]. *)
Definition sights_props : @Props NoHandler :=
  mkProps None (Some [eiffel_tower; louvre]) None None None no_callback.

Definition sights_section (type : string) : LayoutSection :=
  mkLayoutSection "sights" type (Some "Sights") (Some "What to see")
    (Some (mkSectionContent (Some [eiffel_tower; louvre]) (Some "card")
             None))
    None None None None (Some []).

(** * Properties *)

Section Facts.

Context {Handler : Type}.
Implicit Types (onAction : option Handler) (data : option Bag).
Implicit Types (section s : LayoutSection) (v : @VNode Handler).

(** ** Reading trees *)

Lemma flatten_Elem tag attrs (kids : list (@VNode Handler)) :
  flatten (Elem tag attrs kids) = Elem tag attrs kids :: flat_map flatten kids.
Proof.
  reflexivity.
Qed.

Lemma flat_map_flatten_kids {A : Type} (f : @VNode Handler -> list A) kids :
  flat_map f (flat_map flatten kids)
  = flat_map (fun k => flat_map f (flatten k)) kids.
Proof.
  induction kids as [|k r IH]; simpl; [reflexivity|].
  now rewrite flat_map_app, IH.
Qed.

Lemma sectionIds_Elem tag attrs (kids : list (@VNode Handler)) :
  sectionIds (Elem tag attrs kids)
  = section_id (Elem tag attrs kids) ++ flat_map sectionIds kids.
Proof.
  unfold sectionIds. rewrite flatten_Elem.
  cbn [flat_map]. now rewrite flat_map_flatten_kids.
Qed.

Lemma buttons_Elem tag attrs (kids : list (@VNode Handler)) :
  buttons (Elem tag attrs kids)
  = (if String.eqb tag "Button" then [Elem tag attrs kids] else [])
    ++ flat_map buttons kids.
Proof.
  unfold buttons. rewrite flatten_Elem. cbn [filter is_button].
  assert (E : filter is_button (flat_map flatten kids)
              = flat_map (fun k => filter is_button (flatten k)) kids).
  { induction kids as [|k r IH]; simpl; [reflexivity|].
    now rewrite filter_app, IH. }
  rewrite E. now destruct (String.eqb tag "Button").
Qed.

Lemma preorder_eq s :
  preorder s = sec_id s :: flat_map preorder (children_of s).
Proof.
  destruct s as [i t ti su co la cl sp vi ch]; unfold children_of; simpl.
  f_equal. destruct ch as [l|]; [|reflexivity].
  induction l as [|c r IH]; simpl; [reflexivity|].
  now rewrite IH.
Qed.

(** ** The dispatcher *)

(** The switch returns a sub-renderer element or the placeholder. *)
Lemma renderSectionByType_cases section onAction data type :
  (exists c p, renderSectionByType section onAction data type = Sub c p)
  \/ renderSectionByType section onAction data type = placeholder type.
Proof.
  unfold renderSectionByType.
  repeat match goal with
         | |- context [if String.eqb ?a ?b then _ else _] =>
             destruct (String.eqb a b); [left; eexists; eexists; reflexivity|]
         end.
  now right.
Qed.

Lemma renderSectionByType_default section onAction data type :
  (forall t, SectionType_tag t <> type) ->
  renderSectionByType section onAction data type = placeholder type.
Proof.
  intros H. unfold renderSectionByType.
  repeat match goal with
         | |- context [if String.eqb type ?b then _ else _] =>
             destruct (String.eqb_spec type b) as [E|_]
         end;
    try reflexivity; exfalso; symmetry in E;
    first [ exact (H header E) | exact (H hero E) | exact (H cards E)
          | exact (H list_ E) | exact (H timeline E) | exact (H calendar E)
          | exact (H map_ E) | exact (H alerts E)
          | exact (H recommendations E) ].
Qed.

Lemma sectionIds_dispatched section onAction data type :
  sectionIds (renderSectionByType section onAction data type) = [].
Proof.
  destruct (renderSectionByType_cases section onAction data type)
    as [(c & p & E)|E]; rewrite E; reflexivity.
Qed.

Lemma buttons_dispatched section onAction data type :
  buttons (renderSectionByType section onAction data type) = [].
Proof.
  destruct (renderSectionByType_cases section onAction data type)
    as [(c & p & E)|E]; rewrite E; reflexivity.
Qed.

Lemma section_heading_cases section :
  section_heading section = (Nothing : @VNode Handler)
  \/ exists t, section_heading section
               = (Elem "h2" [className "text-3xl font-bold mb-6"] [Text t]
                  : @VNode Handler).
Proof.
  unfold section_heading, when_string.
  destruct (sec_title section) as [t|]; [|now left].
  destruct (truthy_string t); [|now left].
  destruct (negb (String.eqb (sec_type section) "header")
            && negb (String.eqb (sec_type section) "hero"));
    [right; now exists t | now left].
Qed.

(** ** The section renderer *)

Lemma SectionRenderer_eq onAction data section :
  SectionRenderer onAction data section
  = Elem "section"
      [("id", AStr (sec_id section));
       className (containerClass section ++ " "
                  ++ (if is_string (sec_layout section) "map" then ""
                      else "container mx-auto px-4"))%string]
      [section_heading section;
       renderSectionByType section onAction data (sec_type section);
       children_part onAction data section].
Proof.
  destruct section as [i t ti su co la cl sp vi ch].
  unfold children_part, children_of. simpl.
  now destruct ch as [[|c r]|].
Qed.

Lemma kids_of_children_part onAction data section :
  kids_of (children_part onAction data section)
  = map (SectionRenderer onAction data) (children_of section).
Proof.
  unfold children_part. now destruct (children_of section).
Qed.

Lemma sectionIds_heading section :
  sectionIds (section_heading section : @VNode Handler) = [].
Proof.
  destruct (section_heading_cases section) as [E|[t E]]; rewrite E; reflexivity.
Qed.

Lemma buttons_heading section :
  buttons (section_heading section : @VNode Handler) = [].
Proof.
  destruct (section_heading_cases section) as [E|[t E]]; rewrite E; reflexivity.
Qed.

Lemma flat_map_rendered {A : Type} (f : @VNode Handler -> list A)
      (g : LayoutSection -> list A) onAction data l :
  Forall (fun s => f (SectionRenderer onAction data s) = g s) l ->
  flat_map f (map (SectionRenderer onAction data) l) = flat_map g l.
Proof.
  induction 1 as [|c r Hc _ IH]; simpl; [reflexivity|].
  now rewrite Hc, IH.
Qed.

(** A rendered section holds one [<section>] per section of its tree, in
    document order. *)
Lemma sectionIds_SectionRenderer onAction data s :
  sectionIds (SectionRenderer onAction data s) = preorder s.
Proof.
  induction s as [s IH] using LayoutSection_ind.
  rewrite SectionRenderer_eq, sectionIds_Elem, preorder_eq.
  cbn [flat_map section_id String.eqb Ascii.eqb Bool.eqb attr find fst snd].
  rewrite sectionIds_heading, sectionIds_dispatched, app_nil_r.
  cbn [app]. f_equal.
  unfold children_part.
  destruct (children_of s) as [|c r] eqn:E; [reflexivity|].
  rewrite sectionIds_Elem. cbn [section_id String.eqb Ascii.eqb Bool.eqb app].
  now apply flat_map_rendered.
Qed.

(** The section renderer itself puts no [Button] in the tree. *)
Lemma buttons_SectionRenderer onAction data s :
  buttons (SectionRenderer onAction data s) = [].
Proof.
  induction s as [s IH] using LayoutSection_ind.
  rewrite SectionRenderer_eq, buttons_Elem.
  cbn [flat_map String.eqb Ascii.eqb Bool.eqb app].
  rewrite buttons_heading, buttons_dispatched, app_nil_r.
  cbn [app].
  unfold children_part.
  destruct (children_of s) as [|c r] eqn:E; [reflexivity|].
  rewrite buttons_Elem. cbn [String.eqb Ascii.eqb Bool.eqb app].
  rewrite (flat_map_rendered buttons (fun _ => [])) by exact IH.
  clear. induction (c :: r); simpl; auto.
Qed.

(** ** The layout renderer *)

Lemma LayoutRenderer_page config onAction data loading error :
  truthy_opt (fun b : bool => b) loading = false ->
  truthy_opt truthy_string error = false ->
  LayoutRenderer config onAction data loading error
  = layout_view config onAction data.
Proof.
  intros Hl He. unfold LayoutRenderer. rewrite Hl.
  destruct error as [e|]; [|reflexivity].
  simpl in He. now rewrite He.
Qed.

Lemma buttons_ActionBar (actions : list LayoutAction) onAction :
  buttons (ActionBar actions onAction) = map (ActionBar_button onAction) actions.
Proof.
  unfold ActionBar. rewrite buttons_Elem.
  cbn [String.eqb Ascii.eqb Bool.eqb app].
  induction actions as [|a r IH]; simpl; [reflexivity|].
  now rewrite IH.
Qed.

Lemma buttonIds_ActionBar_buttons (actions : list LayoutAction) onAction :
  flat_map click_id (map (ActionBar_button onAction) actions)
  = map act_id actions.
Proof.
  induction actions as [|a r IH]; simpl; [reflexivity|].
  now rewrite IH.
Qed.

Lemma buttons_layout_view config onAction data :
  buttons (layout_view config onAction data)
  = map (ActionBar_button onAction) (filter is_floating (actions_of config)).
Proof.
  unfold layout_view. rewrite buttons_Elem.
  cbn [String.eqb Ascii.eqb Bool.eqb app flat_map].
  rewrite buttons_Elem. cbn [String.eqb Ascii.eqb Bool.eqb app].
  rewrite (flat_map_rendered buttons (fun _ => [])).
  2:{ apply Forall_forall. intros s _. apply buttons_SectionRenderer. }
  replace (flat_map (fun _ : LayoutSection => @nil (@VNode Handler))
                    (cfg_sections config)) with (@nil (@VNode Handler))
    by (induction (cfg_sections config); simpl; auto).
  rewrite app_nil_r. cbn [app].
  unfold actions_of, when_nonempty.
  destruct (cfg_actions config) as [[|a r]|]; try reflexivity.
  apply buttons_ActionBar.
Qed.

Lemma sectionIds_layout_view config onAction data :
  sectionIds (layout_view config onAction data)
  = flat_map preorder (cfg_sections config).
Proof.
  unfold layout_view. rewrite sectionIds_Elem.
  cbn [section_id String.eqb Ascii.eqb Bool.eqb app flat_map].
  rewrite sectionIds_Elem.
  cbn [section_id String.eqb Ascii.eqb Bool.eqb app].
  rewrite (flat_map_rendered sectionIds preorder).
  2:{ apply Forall_forall. intros s _. apply sectionIds_SectionRenderer. }
  rewrite app_nil_r.
  assert (E : sectionIds (when_nonempty (cfg_actions config)
                (fun actions => ActionBar (filter is_floating actions) onAction))
              = []).
  { unfold when_nonempty.
    destruct (cfg_actions config) as [[|a r]|]; try reflexivity.
    unfold ActionBar. rewrite sectionIds_Elem.
    cbn [section_id String.eqb Ascii.eqb Bool.eqb app].
    induction (filter is_floating (a :: r)); simpl; auto. }
  rewrite E. apply app_nil_r.
Qed.

(** ** Dispatch by type *)

(** C1, as the code has it.  For each of the nine members of [SectionType]
    the switch has a [case] for (header, hero, cards, list, timeline,
    calendar, map, alerts, recommendations) the dispatcher returns the
    element of one sub-renderer, its own, and not the placeholder; no two
    members share a sub-renderer.  For form, gallery, stats and footer it
    returns the placeholder. *)
Theorem dispatch_by_section_type (t : SectionType) section onAction data :
  let r := renderSectionByType section onAction data (SectionType_tag t) in
  match sub_renderer_case t with
  | Some c =>
      (exists p, r = Sub c p) /\
      r <> placeholder (SectionType_tag t) /\
      (forall c', selected r = Some c' -> c' = c) /\
      (forall t', sub_renderer_case t' = Some c -> t' = t)
  | None =>
      In t [form; gallery; stats; footer] /\
      r = placeholder (SectionType_tag t) /\
      selected r = None
  end.
Proof.
  destruct t; cbv zeta; cbn [sub_renderer_case];
    try (split; [simpl; tauto | split; reflexivity]);
    (split; [eexists; reflexivity|]);
    (split; [discriminate|]);
    (split; [intros c' E; simpl in E; now inversion E|]);
    intros t' E; destruct t'; simpl in E; congruence.
Qed.

(** C5.  A [type] that is no member of [SectionType] reaches the
    [default:] branch: the dispatcher returns the placeholder, whose text
    holds the type string as it is, and the section renderer returns its
    [<section>] element around it.  Both are total: there is no exception
    to raise. *)
Theorem unknown_type_placeholder (type : string) section onAction data :
  (forall t, SectionType_tag t <> type) ->
  renderSectionByType section onAction data type = placeholder type
  /\ In type (texts (renderSectionByType section onAction data type))
  /\ selected (renderSectionByType section onAction data type) = None
  /\ (sec_type section = type ->
      exists attrs,
        SectionRenderer onAction data section
        = Elem "section" attrs
            [section_heading section; placeholder type;
             children_part onAction data section]).
Proof.
  intros H.
  rewrite (renderSectionByType_default section onAction data H).
  repeat split.
  - simpl. auto.
  - intros E. rewrite SectionRenderer_eq, E.
    rewrite (renderSectionByType_default section onAction data H).
    eexists. reflexivity.
Qed.

(** ** Order *)

(** C6.  With no takeover state, the layout renderer renders
    [config.sections] by array position, whatever their types: the
    [<section>] elements of the output are those of the section trees in
    document order.  At every level a section element holds its heading
    and its own content first, then its children, in order, each rendered
    by [SectionRenderer] again. *)
Theorem render_preserves_order config onAction data loading error :
  truthy_opt (fun b : bool => b) loading = false ->
  truthy_opt truthy_string error = false ->
  let out := LayoutRenderer config onAction data loading error in
  (exists attrs attrs' bar,
      out = Elem "div" attrs
              [Elem "div" attrs'
                 (map (SectionRenderer onAction data) (cfg_sections config));
               bar])
  /\ sectionIds out = flat_map preorder (cfg_sections config)
  /\ (forall s,
         kids_of (SectionRenderer onAction data s)
         = [section_heading s;
            renderSectionByType s onAction data (sec_type s);
            children_part onAction data s]
         /\ kids_of (children_part onAction data s)
            = map (SectionRenderer onAction data) (children_of s)
         /\ sectionIds (SectionRenderer onAction data s)
            = sec_id s :: flat_map preorder (children_of s)).
Proof.
  intros Hl He out. subst out.
  rewrite (LayoutRenderer_page config onAction data loading error Hl He).
  split; [|split].
  - unfold layout_view. do 3 eexists. reflexivity.
  - apply sectionIds_layout_view.
  - intros s. split; [|split].
    + now rewrite SectionRenderer_eq.
    + apply kids_of_children_part.
    + rewrite sectionIds_SectionRenderer. apply preorder_eq.
Qed.

(** ** The action bar *)

(** C4.  With no takeover state, the [Button]s of the output are those of
    the action bar, one for each action of [config.actions] whose position
    is ["floating"], in order, and no other.  For three actions at top,
    floating and bottom, the second alone is there. *)
Theorem floating_only_action_bar config onAction data loading error :
  truthy_opt (fun b : bool => b) loading = false ->
  truthy_opt truthy_string error = false ->
  let out := LayoutRenderer config onAction data loading error in
  buttons out
  = map (ActionBar_button onAction) (filter is_floating (actions_of config))
  /\ buttonIds out = map act_id (filter is_floating (actions_of config))
  /\ (forall a b c,
         cfg_actions config = Some [a; b; c] ->
         act_position a = Some "top" ->
         act_position b = Some "floating" ->
         act_position c = Some "bottom" ->
         buttons out = [ActionBar_button onAction b]
         /\ buttonIds out = [act_id b]).
Proof.
  intros Hl He out. subst out.
  rewrite (LayoutRenderer_page config onAction data loading error Hl He).
  unfold buttonIds. rewrite buttons_layout_view, buttonIds_ActionBar_buttons.
  split; [reflexivity|]. split; [reflexivity|].
  intros a b c E Ha Hb Hc. unfold actions_of. rewrite E.
  unfold is_floating. cbn [filter]. rewrite Ha, Hb, Hc. now simpl.
Qed.

(** ** Takeover states *)

(** C3.  When [loading] is true the output is the loading indicator alone,
    whatever [error] is: a centred container around the spinning element,
    with no section, no action and no text.  When [loading] is false or
    absent and [error] is a non-empty string [X], the output is the error
    state alone: the heading "Error" and [X] as a paragraph, with no section
    and no action. *)
Theorem takeover_states config onAction data loading error :
  let out := LayoutRenderer config onAction data loading error in
  (loading = Some true ->
   out = loading_view
   /\ out
      = Elem "div" [className "flex items-center justify-center min-h-screen"]
          [Elem "div"
             [className
                "animate-spin rounded-full h-12 w-12 border-b-2 border-primary"]
             []]
   /\ sectionIds out = [] /\ buttons out = []
   /\ texts out = [])
  /\ (truthy_opt (fun b : bool => b) loading = false ->
      forall X, error = Some X -> X <> "" ->
      out = error_view X
      /\ out
         = Elem "div"
             [className
                "min-h-screen flex items-center justify-center bg-destructive/10"]
             [Elem "div" [className "text-center"]
                [Elem "h2"
                   [className "text-2xl font-bold text-destructive mb-2"]
                   [Text "Error"];
                 Elem "p" [className "text-muted-foreground"] [Text X]]]
      /\ sectionIds out = [] /\ buttons out = []
      /\ texts out = ["Error"; X]).
Proof.
  cbv zeta. split.
  - intros ->. unfold LayoutRenderer. simpl truthy_opt. cbv iota.
    repeat split.
  - intros Hl X -> HX. unfold LayoutRenderer. rewrite Hl.
    assert (T : truthy_string X = true).
    { unfold truthy_string. destruct (String.eqb_spec X ""); [contradiction|reflexivity]. }
    rewrite T. repeat split.
Qed.

(** ** Visibility *)

Lemma SectionRenderer_set_visibility rule onAction data s :
  SectionRenderer onAction data (set_visibility rule s)
  = SectionRenderer onAction data s.
Proof.
  induction s as [s IH] using LayoutSection_ind.
  rewrite !SectionRenderer_eq.
  assert (K : children_part onAction data (set_visibility rule s)
              = children_part onAction data s).
  { unfold children_part.
    assert (M : map (SectionRenderer onAction data)
                    (map (set_visibility rule) (children_of s))
                = map (SectionRenderer onAction data) (children_of s))
      by (induction IH as [|c r Hc _ IHr]; cbn [map];
          [reflexivity | now rewrite Hc, IHr]).
    assert (C : children_of (set_visibility rule s)
                = map (set_visibility rule) (children_of s))
      by (destruct s as [i t ti su co la cl sp vi [l|]]; reflexivity).
    rewrite C. destruct (children_of s) as [|c r]; [reflexivity|].
    cbn [map] in *. now rewrite M. }
  rewrite K.
  destruct s as [i t ti su co la cl sp vi ch]; reflexivity.
Qed.

(** C2, as the code has it.  The renderer takes no auth state and no
    predicate, and never reads [visibility]: the output of a section is
    the same whatever the rules on it and below it, every section of the
    tree is rendered, children included, and the layout renderer's output
    does not change with the rules either. *)
Theorem visibility_is_not_evaluated
        (rule : LayoutSection -> option VisibilityRule) onAction data s :
  SectionRenderer onAction data (set_visibility rule s)
  = SectionRenderer onAction data s
  /\ sectionIds (SectionRenderer onAction data s) = preorder s
  /\ (forall config loading error,
         LayoutRenderer
           (with_sections config
              (map (set_visibility rule) (cfg_sections config)))
           onAction data loading error
         = LayoutRenderer config onAction data loading error).
Proof.
  split; [apply SectionRenderer_set_visibility|].
  split; [apply sectionIds_SectionRenderer|].
  intros config loading error.
  unfold LayoutRenderer, layout_view, with_sections. cbn [cfg_sections cfg_actions].
  rewrite map_map.
  rewrite (map_ext _ _ (fun x => SectionRenderer_set_visibility rule onAction data x)).
  reflexivity.
Qed.

(** ** Missing content *)

Lemma items_or_empty_no_items section :
  no_items section -> items_or_empty section = [].
Proof.
  unfold items_or_empty.
  intros [E|(content & E & Ei)]; rewrite E; [reflexivity|now rewrite Ei].
Qed.

(** C7.  For a section whose [content] or [content.items] is absent, the
    dispatcher hands the sub-renderer of cards, list and timeline an empty
    [items]; [CardGrid] and [ListSection] then return their container
    with no item in it, and raise nothing. *)
Theorem empty_items_safety section onAction data :
  no_items section ->
  (sec_type section = "cards" ->
   exists p,
     renderSectionByType section onAction data (sec_type section)
     = Sub cCardGrid p
     /\ p_items p = Some []
     /\ exists attrs, CardGrid p = Some (Elem "div" attrs []))
  /\ (sec_type section = "list" ->
      exists p,
        renderSectionByType section onAction data (sec_type section)
        = Sub cListSection p
        /\ p_items p = Some []
        /\ exists attrs, ListSection p = Some (Elem "div" attrs []))
  /\ (sec_type section = "timeline" ->
      exists p,
        renderSectionByType section onAction data (sec_type section)
        = Sub cTimelineSection p
        /\ p_items p = Some []).
Proof.
  intros H. pose proof (items_or_empty_no_items H) as E.
  split; [|split]; intros ->; unfold renderSectionByType;
    cbn [String.eqb Ascii.eqb Bool.eqb]; rewrite E; eexists.
  - split; [reflexivity|]. split; [reflexivity|].
    unfold CardGrid. cbn [p_items map]. eexists. reflexivity.
  - split; [reflexivity|]. split; [reflexivity|].
    unfold ListSection. cbn [p_items map]. eexists. reflexivity.
  - split; reflexivity.
Qed.

(** ** Titles *)

Lemma is_h2_dispatched t section onAction data type :
  is_h2 t (renderSectionByType section onAction data type) = false.
Proof.
  destruct (renderSectionByType_cases section onAction data type)
    as [(c & p & E)|E]; rewrite E; reflexivity.
Qed.

Lemma is_h2_children_part t onAction data section :
  is_h2 t (children_part onAction data section) = false.
Proof.
  unfold children_part.
  destruct (children_of section) as [|c r]; [reflexivity|].
  destruct c; reflexivity.
Qed.

(** C8.  For a section with a (non-empty) title [t]: when its type is
    neither header nor hero, the section element holds the heading
    [<h2>t</h2>] once, as its first child, and the dispatched content
    next; when its type is header or hero, the section element holds no
    such heading and the title goes to the sub-renderer as its [title]
    prop. *)
Theorem title_rendered_once section onAction data (t : string) :
  sec_title section = Some t ->
  t <> "" ->
  let kids := kids_of (SectionRenderer onAction data section) in
  let content :=
    renderSectionByType section onAction data (sec_type section) in
  let h := Elem "h2" [className "text-3xl font-bold mb-6"] [Text t] in
  if String.eqb (sec_type section) "header"
     || String.eqb (sec_type section) "hero"
  then
    filter (is_h2 t) kids = []
    /\ nth_error kids 1 = Some content
    /\ exists c p,
        content = Sub c p /\ p_title p = Some t
        /\ (c = cHeaderSection \/ c = cHeroSection)
  else
    filter (is_h2 t) kids = [h]
    /\ nth_error kids 0 = Some h
    /\ nth_error kids 1 = Some content.
Proof.
  intros Ht Hne. cbv zeta.
  rewrite SectionRenderer_eq. cbn [kids_of filter nth_error].
  rewrite is_h2_dispatched, is_h2_children_part.
  assert (T : truthy_string t = true).
  { unfold truthy_string. destruct (String.eqb_spec t ""); [contradiction|reflexivity]. }
  unfold section_heading, when_string. rewrite Ht, T.
  destruct (String.eqb_spec (sec_type section) "header") as [E|_].
  - cbn [orb negb andb is_h2]. repeat split.
    unfold renderSectionByType. rewrite E. cbn [String.eqb Ascii.eqb Bool.eqb].
    do 2 eexists. split; [reflexivity|]. cbn [p_title]. auto.
  - destruct (String.eqb_spec (sec_type section) "hero") as [E|_].
    + cbn [orb negb andb is_h2]. repeat split.
      unfold renderSectionByType. rewrite E. cbn [String.eqb Ascii.eqb Bool.eqb].
      do 2 eexists. split; [reflexivity|]. cbn [p_title]. auto.
    + cbn [orb negb andb is_h2 String.eqb Ascii.eqb Bool.eqb].
      rewrite String.eqb_refl. repeat split.
Qed.

(** ** Defaults *)

(** C10.  For a cards section, [section.columns || 3] hands [CardGrid]
    three columns for every falsy [columns] (absent, 0, NaN), so that the
    grid is rendered with [lg:grid-cols-3], and [section.spacing ||
    "normal"] hands it ["normal"] for every falsy [spacing] (absent, the
    empty string). *)
Theorem cards_falsy_defaults section onAction data :
  sec_type section = "cards" ->
  exists p,
    renderSectionByType section onAction data (sec_type section)
    = Sub cCardGrid p
    /\ (truthy_opt truthy_number (sec_columns section) = false ->
        p_columns p = Some (Int 3)
        /\ exists gap,
            CardGrid p
            = Some (Elem "div"
                      [className
                         ("grid grid-cols-1 md:grid-cols-2 lg:grid-cols-3 gap-"
                          ++ gap)%string]
                      (map (CardGrid_card onAction) (items_or_empty section))))
    /\ (sec_columns section = Some (Int 0) -> p_columns p = Some (Int 3))
    /\ (truthy_opt truthy_string (sec_spacing section) = false ->
        p_spacing p = Some "normal").
Proof.
  intros ->. unfold renderSectionByType. cbn [String.eqb Ascii.eqb Bool.eqb].
  eexists. split; [reflexivity|]. cbn [p_columns p_spacing].
  assert (C : truthy_opt truthy_number (sec_columns section) = false ->
              or_default truthy_number (sec_columns section) (Int 3) = Int 3).
  { unfold truthy_opt, or_default.
    destruct (sec_columns section) as [c|]; [|reflexivity].
    now intros ->. }
  split; [|split].
  - intros F. rewrite (C F). split; [reflexivity|].
    unfold CardGrid. cbn [p_columns p_spacing p_items p_onAction].
    eexists. reflexivity.
  - intros E. rewrite C; [reflexivity|]. now rewrite E.
  - unfold truthy_opt, or_default.
    destruct (sec_spacing section) as [sp|]; [|reflexivity].
    now intros ->.
Qed.

(** ** Determinism *)

(** C9.  The output of the layout renderer is a function of its props:
    two invocations on the same config, callback, data bag and flags
    return the same tree.  (The components call no hook and read no
    variable outside their props, which is why they are functions here.) *)
Theorem rendering_is_deterministic
        config config' onAction onAction' data data' loading loading'
        error error' :
  config = config' -> onAction = onAction' -> data = data' ->
  loading = loading' -> error = error' ->
  LayoutRenderer config onAction data loading error
  = LayoutRenderer config' onAction' data' loading' error'
  /\ map (SectionRenderer onAction data) (cfg_sections config)
     = map (SectionRenderer onAction' data') (cfg_sections config').
Proof.
  intros -> -> -> -> ->. split; reflexivity.
Qed.

End Facts.

(** * The properties on the sample inputs *)

(** The scenario of the specification renders one cards section, whose
    grid holds one card titled "Eiffel Tower", and one Save button. *)
Example paris_trip_scenario :
  sectionIds (LayoutRenderer paris_config no_callback None (Some false) None)
  = ["s1"]
  /\ renderSectionByType
       (mkLayoutSection "s1" "cards" None None
          (Some (mkSectionContent (Some [eiffel_tower]) None None))
          None None None None None)
       no_callback None "cards"
     = Sub cCardGrid
         (mkProps None (Some [eiffel_tower]) (Some (Int 3)) (Some "normal")
            None no_callback)
  /\ option_map texts
       (CardGrid (mkProps None (Some [eiffel_tower]) (Some (Int 3))
                    (Some "normal") None no_callback))
     = Some ["Eiffel Tower"]
  /\ buttonIds (LayoutRenderer paris_config no_callback None (Some false) None)
     = ["save"]
  /\ texts (LayoutRenderer paris_config no_callback None (Some false) None)
     = ["Save"].
Proof.
  repeat split.
Qed.

(** C1, as stated, fails on form.
    A form section, a member of [SectionType], reaches [default:]: the
    dispatcher returns the placeholder and selects no sub-renderer. *)
Lemma form_section_reaches_placeholder :
  In form SectionType_values
  /\ renderSectionByType (bare_section "s1" "form") no_callback None
       (SectionType_tag form)
     = placeholder "form"
  /\ ~ (exists c p,
           renderSectionByType (bare_section "s1" "form") no_callback None
             (SectionType_tag form)
           = Sub c p).
Proof.
  split; [simpl; tauto|]. split; [reflexivity|].
  intros (c & p & E). discriminate E.
Qed.

(** C2, as stated, fails on a section for signed-in users.
    A section for signed-in users is rendered for an anonymous caller, with
    its child: the contract of the specification renders neither. *)
Lemma members_section_is_rendered :
  spec_visible false (fun _ => false) members_section = false
  /\ spec_rendered_ids false (fun _ => false) members_section = []
  /\ sectionIds (SectionRenderer no_callback None members_section)
     = ["members"; "perks"]
  /\ sectionIds (SectionRenderer no_callback None members_section)
     <> spec_rendered_ids false (fun _ => false) members_section.
Proof.
  repeat split. discriminate.
Qed.

Lemma takeover_states_witness :
  LayoutRenderer sample_config no_callback None (Some true) (Some "boom")
  = Elem "div" [className "flex items-center justify-center min-h-screen"]
      [Elem "div"
         [className
            "animate-spin rounded-full h-12 w-12 border-b-2 border-primary"]
         []]
  /\ LayoutRenderer sample_config no_callback None (Some false) (Some "boom")
     = error_view "boom"
  /\ texts (LayoutRenderer sample_config no_callback None None (Some "boom"))
     = ["Error"; "boom"].
Proof.
  split; [|split].
  - exact (proj1 (proj2 (proj1 (takeover_states sample_config no_callback None
                                  (Some true) (Some "boom")) eq_refl))).
  - apply (proj2 (takeover_states sample_config no_callback None
                    (Some false) (Some "boom")) eq_refl "boom" eq_refl).
    discriminate.
  - apply (proj2 (takeover_states sample_config no_callback None
                    None (Some "boom")) eq_refl "boom" eq_refl).
    discriminate.
Defined.

Lemma floating_only_action_bar_witness :
  cfg_actions sample_config
  = Some [action_at "a" "top"; action_at "b" "floating"; action_at "c" "bottom"]
  /\ buttonIds (LayoutRenderer sample_config no_callback None (Some false) None)
     = ["b"].
Proof.
  split; [reflexivity|].
  apply (proj2 (proj2 (floating_only_action_bar sample_config no_callback None
                         (Some false) None eq_refl eq_refl))
           (action_at "a" "top") (action_at "b" "floating")
           (action_at "c" "bottom"));
    reflexivity.
Defined.

Lemma unknown_type_placeholder_witness :
  (forall t, SectionType_tag t <> "banner")
  /\ renderSectionByType (bare_section "s1" "banner") no_callback None "banner"
     = placeholder "banner"
  /\ In "banner"
       (texts (renderSectionByType (bare_section "s1" "banner") no_callback
                 None "banner")).
Proof.
  assert (H : forall t, SectionType_tag t <> "banner")
    by (intros t; destruct t; discriminate).
  split; [exact H|].
  destruct (unknown_type_placeholder (bare_section "s1" "banner") no_callback
              None H) as (E & I & _).
  split; [exact E | exact I].
Defined.

Lemma render_preserves_order_witness :
  sectionIds (LayoutRenderer sample_config no_callback None None None)
  = ["s1"; "s1a"; "s1b"; "s2"; "s3"].
Proof.
  exact (proj1 (proj2 (render_preserves_order sample_config no_callback None
                         None None eq_refl eq_refl))).
Defined.

Lemma empty_items_safety_witness :
  no_items (bare_section "s1" "cards")
  /\ exists p,
      renderSectionByType (bare_section "s1" "cards") no_callback None "cards"
      = Sub cCardGrid p
      /\ p_items p = Some []
      /\ exists attrs, CardGrid p = Some (Elem "div" attrs []).
Proof.
  assert (H : no_items (bare_section "s1" "cards")) by (left; reflexivity).
  split; [exact H|].
  exact (proj1 (empty_items_safety no_callback None H) eq_refl).
Defined.

Lemma title_rendered_once_witness :
  filter (is_h2 "Sights")
    (kids_of (SectionRenderer no_callback None
                (titled_section "s1" "cards" "Sights")))
  = [Elem "h2" [className "text-3xl font-bold mb-6"] [Text "Sights"]]
  /\ filter (is_h2 "Sights")
       (kids_of (SectionRenderer no_callback None
                   (titled_section "s0" "hero" "Sights")))
     = [].
Proof.
  assert (N : "Sights" <> "") by discriminate.
  split.
  - exact (proj1 (title_rendered_once (titled_section "s1" "cards" "Sights")
                    no_callback None eq_refl N)).
  - exact (proj1 (title_rendered_once (titled_section "s0" "hero" "Sights")
                    no_callback None eq_refl N)).
Defined.

Lemma rendering_is_deterministic_witness :
  LayoutRenderer sample_config no_callback None (Some false) None
  = LayoutRenderer sample_config no_callback None (Some false) None.
Proof.
  exact (proj1 (rendering_is_deterministic (config := sample_config)
                  (onAction := no_callback) (data := None)
                  (loading := Some false) (error := None)
                  eq_refl eq_refl eq_refl eq_refl eq_refl)).
Defined.

Lemma cards_falsy_defaults_witness :
  sec_columns zero_columns_section = Some (Int 0)
  /\ sec_spacing zero_columns_section = Some ""
  /\ exists p,
      renderSectionByType zero_columns_section no_callback None "cards"
      = Sub cCardGrid p
      /\ p_columns p = Some (Int 3)
      /\ p_spacing p = Some "normal".
Proof.
  split; [reflexivity|]. split; [reflexivity|].
  destruct (cards_falsy_defaults zero_columns_section no_callback None eq_refl)
    as (p & E & _ & C & S).
  exists p. split; [exact E|]. split; [exact (C eq_refl) | exact (S eq_refl)].
Defined.

(** * Further properties of the renderer *)

Section MoreFacts.

Context {Handler : Type}.
Implicit Types (onAction : option Handler) (data : option Bag).
Implicit Types (section s : LayoutSection) (v : @VNode Handler).

(** ** Reading trees, one observation for all *)

Lemma observe_Elem {A : Type} (f : @VNode Handler -> list A) tag attrs kids :
  observe f (Elem tag attrs kids)
  = f (Elem tag attrs kids) ++ flat_map (observe f) kids.
Proof.
  unfold observe. rewrite flatten_Elem. cbn [flat_map].
  now rewrite flat_map_flatten_kids.
Qed.

Lemma flat_map_map {A B C : Type} (f : B -> list C) (g : A -> B) l :
  flat_map f (map g l) = flat_map (fun x => f (g x)) l.
Proof.
  induction l as [|a r IH]; simpl; [reflexivity|]. now rewrite IH.
Qed.

Lemma flat_map_single {A B : Type} (f : A -> B) l :
  flat_map (fun x => [f x]) l = map f l.
Proof.
  induction l as [|a r IH]; simpl; [reflexivity|]. now rewrite IH.
Qed.

Lemma flat_map_none {A B : Type} (l : list A) :
  flat_map (fun _ => @nil B) l = [].
Proof.
  induction l; simpl; auto.
Qed.

Lemma flat_map_nested {A B C : Type} (f : B -> list C) (g : A -> list B) l :
  flat_map (fun x => flat_map f (g x)) l = flat_map f (flat_map g l).
Proof.
  induction l as [|a r IH]; simpl; [reflexivity|].
  now rewrite flat_map_app, IH.
Qed.

Lemma shown_cases (o : option string) :
  (shown o = [] /\ truthy_opt truthy_string o = false)
  \/ exists x, o = Some x /\ truthy_string x = true /\ shown o = [x].
Proof.
  destruct o as [x|]; simpl; [|now left].
  destruct (truthy_string x) eqn:E; [right; now exists x | now left].
Qed.

Lemma observe_when_string {A : Type} (f : @VNode Handler -> list A) o node :
  f Nothing = [] ->
  observe f (when_string o node)
  = flat_map (fun x => observe f (node x)) (shown o).
Proof.
  intros N. unfold when_string, shown.
  destruct o as [x|]; [destruct (truthy_string x)|];
    cbn [flat_map]; rewrite ?app_nil_r; try reflexivity;
    unfold observe; simpl; now rewrite N.
Qed.

Lemma observe_when_nonempty {A B : Type} (f : @VNode Handler -> list A)
      (o : option (list B)) node :
  f Nothing = [] ->
  observe f (when_nonempty o node)
  = match o with
    | Some (a :: r) => observe f (node (a :: r))
    | _ => []
    end.
Proof.
  intros N. unfold when_nonempty.
  destruct o as [[|a r]|]; try reflexivity; unfold observe; simpl; now rewrite N.
Qed.

Lemma preorder_sections_eq s :
  preorder_sections s = s :: flat_map preorder_sections (children_of s).
Proof.
  destruct s as [i t ti su co la cl sp vi ch]; unfold children_of; simpl.
  f_equal. now destruct ch.
Qed.

(** ** One dispatched content per section *)

Lemma subs_dispatched section onAction data type :
  subs (renderSectionByType section onAction data type)
  = sub_of (renderSectionByType section onAction data type).
Proof.
  destruct (renderSectionByType_cases section onAction data type)
    as [(c & p & E)|E]; rewrite E; reflexivity.
Qed.

Lemma subs_heading section :
  subs (section_heading section : @VNode Handler) = [].
Proof.
  destruct (section_heading_cases (Handler:=Handler) section) as [E|[t E]]; rewrite E; reflexivity.
Qed.

Lemma subs_SectionRenderer onAction data s :
  subs (SectionRenderer onAction data s)
  = flat_map (fun x => sub_of (renderSectionByType x onAction data (sec_type x)))
             (preorder_sections s).
Proof.
  induction s as [s IH] using LayoutSection_ind.
  rewrite SectionRenderer_eq, preorder_sections_eq. unfold subs at 1.
  rewrite observe_Elem. cbn [sub_of flat_map app].
  change (observe sub_of) with (@subs Handler).
  rewrite subs_heading, subs_dispatched, app_nil_r. cbn [app]. f_equal.
  rewrite <- flat_map_nested.
  unfold children_part.
  destruct (children_of s) as [|c r] eqn:E; [reflexivity|].
  unfold subs at 1. rewrite observe_Elem. cbn [sub_of app].
  change (observe sub_of) with (@subs Handler).
  now apply flat_map_rendered.
Qed.

Lemma subs_ActionBar (actions : list LayoutAction) onAction :
  subs (ActionBar actions onAction) = [].
Proof.
  unfold ActionBar, subs. rewrite observe_Elem. cbn [sub_of app].
  rewrite flat_map_map. apply flat_map_none.
Qed.

Lemma subs_layout_view config onAction data :
  subs (layout_view config onAction data)
  = flat_map (fun x => sub_of (renderSectionByType x onAction data (sec_type x)))
             (flat_map preorder_sections (cfg_sections config)).
Proof.
  unfold layout_view, subs. rewrite observe_Elem. cbn [sub_of flat_map app].
  rewrite observe_Elem. cbn [sub_of app].
  rewrite observe_when_nonempty by reflexivity.
  change (observe sub_of) with (@subs Handler).
  rewrite (flat_map_rendered subs
             (fun s => flat_map
                (fun x => sub_of (renderSectionByType x onAction data (sec_type x)))
                (preorder_sections s))).
  2:{ apply Forall_forall. intros s _. apply subs_SectionRenderer. }
  rewrite flat_map_nested.
  destruct (cfg_actions config) as [[|a r]|]; rewrite ?app_nil_r; try reflexivity.
  rewrite subs_ActionBar. now rewrite !app_nil_r.
Qed.

Lemma subs_LayoutRenderer_takeover config onAction data loading error :
  LayoutRenderer config onAction data loading error
  = layout_view config onAction data
  \/ subs (LayoutRenderer config onAction data loading error) = [].
Proof.
  unfold LayoutRenderer.
  destruct (truthy_opt (fun b : bool => b) loading); [now right|].
  destruct error as [e|]; [|now left].
  destruct (truthy_string e); [now right | now left].
Qed.

Lemma preorder_of_sections s :
  map sec_id (preorder_sections s) = preorder s.
Proof.
  induction s as [s IH] using LayoutSection_ind.
  rewrite preorder_sections_eq, preorder_eq. cbn [map]. f_equal.
  induction IH as [|c r Hc _ IHr]; simpl; [reflexivity|].
  now rewrite map_app, Hc, IHr.
Qed.

(** X1.  With no takeover state, the sub-renderer elements of the output
    are, in document order, the elements the dispatcher returns for the
    sections of the config in pre-order: one for each section whose type has
    a [case], none for a section that gets the placeholder; the same
    pre-order gives the [<section>] ids. *)
Theorem one_content_per_section config onAction data loading error :
  truthy_opt (fun b : bool => b) loading = false ->
  truthy_opt truthy_string error = false ->
  let out := LayoutRenderer config onAction data loading error in
  let all := flat_map preorder_sections (cfg_sections config) in
  subs out
  = flat_map (fun x => sub_of (renderSectionByType x onAction data (sec_type x)))
             all
  /\ sectionIds out = map sec_id all
  /\ (forall x,
         List.length (sub_of (renderSectionByType x onAction data (sec_type x))) <= 1)
  /\ List.length (subs out) <= List.length (sectionIds out).
Proof.
  intros Hl He out all. subst out all.
  rewrite (LayoutRenderer_page config onAction data loading error Hl He).
  rewrite subs_layout_view, sectionIds_layout_view.
  assert (L : forall x,
             List.length (sub_of (renderSectionByType x onAction data (sec_type x)))
             <= 1).
  { intros x.
    destruct (renderSectionByType_cases x onAction data (sec_type x))
      as [(c & p & E)|E]; rewrite E; unfold placeholder; simpl; clear; lia. }
  assert (M : map sec_id (flat_map preorder_sections (cfg_sections config))
              = flat_map preorder (cfg_sections config)).
  { induction (cfg_sections config) as [|c r IH]; simpl; [reflexivity|].
    now rewrite map_app, preorder_of_sections, IH. }
  split; [reflexivity|]. split; [now rewrite M|]. split; [exact L|].
  rewrite <- M, length_map. clear M.
  induction (flat_map preorder_sections (cfg_sections config)) as [|x r IH];
    simpl; [clear; lia|].
  rewrite length_app. specialize (L x). clear - L IH. lia.
Qed.

(** ** The callback and the data bag *)

Lemma dispatched_forwarding section onAction data type :
  Forall (fun cp : Component * Props =>
            p_onAction (snd cp) = onAction
            /\ p_data (snd cp) = if takes_data (fst cp) then data else None)
         (sub_of (renderSectionByType section onAction data type)).
Proof.
  unfold renderSectionByType.
  repeat match goal with
         | |- context [if String.eqb ?a ?b then _ else _] =>
             destruct (String.eqb a b); [repeat constructor|]
         end.
  constructor.
Qed.

Lemma clicks_heading section :
  clicks (section_heading section : @VNode Handler) = [].
Proof.
  destruct (section_heading_cases (Handler:=Handler) section) as [E|[t E]];
    rewrite E; reflexivity.
Qed.

Lemma clicks_dispatched section onAction data type :
  clicks (renderSectionByType section onAction data type) = [].
Proof.
  destruct (renderSectionByType_cases section onAction data type)
    as [(c & p & E)|E]; rewrite E; reflexivity.
Qed.

(** The section renderer itself sets no [onClick]. *)
Lemma clicks_SectionRenderer onAction data s :
  clicks (SectionRenderer onAction data s) = [].
Proof.
  induction s as [s IH] using LayoutSection_ind.
  rewrite SectionRenderer_eq. unfold clicks at 1.
  rewrite observe_Elem. cbn [flat_map].
  change (observe click_of) with (@clicks Handler).
  rewrite clicks_heading, clicks_dispatched, app_nil_r.
  unfold children_part.
  destruct (children_of s) as [|c r] eqn:E; [reflexivity|].
  unfold clicks at 1. rewrite observe_Elem.
  change (observe click_of) with (@clicks Handler).
  rewrite (flat_map_rendered clicks (fun _ => [])) by exact IH.
  now rewrite flat_map_none.
Qed.

Lemma clicks_ActionBar (actions : list LayoutAction) onAction :
  clicks (ActionBar actions onAction)
  = map (fun a => (onAction, act_id a, act_payload a)) actions.
Proof.
  unfold ActionBar, clicks. rewrite observe_Elem.
  rewrite flat_map_map. cbn [click_of attr find fst snd String.eqb Ascii.eqb Bool.eqb app].
  apply flat_map_single.
Qed.

Lemma click_of_styled tag cls (kids : list (@VNode Handler)) :
  click_of (Elem tag [className cls] kids) = [].
Proof.
  reflexivity.
Qed.

Lemma clicks_layout_view config onAction data :
  clicks (layout_view config onAction data)
  = map (fun a => (onAction, act_id a, act_payload a))
        (filter is_floating (actions_of config)).
Proof.
  unfold layout_view, clicks. rewrite observe_Elem. cbn [flat_map].
  rewrite observe_Elem.
  rewrite observe_when_nonempty by reflexivity.
  change (observe click_of) with (@clicks Handler).
  rewrite (flat_map_rendered clicks (fun _ => [])).
  2:{ apply Forall_forall. intros s _. apply clicks_SectionRenderer. }
  rewrite flat_map_none, !click_of_styled, !app_nil_r. unfold actions_of.
  destruct (cfg_actions config) as [[|a r]|]; try reflexivity.
  cbn [app]. now rewrite clicks_ActionBar.
Qed.

(** X2.  Whatever the flags, every sub-renderer element of the output
    carries the callback the layout renderer was given; the data bag goes to
    the calendar and map elements, and no other element gets one.  Every
    [onClick] of the output calls that same callback with the id and the
    payload of a floating action of the config, unchanged. *)
Theorem callback_and_data_forwarding config onAction data loading error :
  let out := LayoutRenderer config onAction data loading error in
  Forall (fun cp : Component * Props =>
            p_onAction (snd cp) = onAction
            /\ p_data (snd cp) = if takes_data (fst cp) then data else None)
         (subs out)
  /\ Forall (fun k =>
               exists a, In a (actions_of config) /\ is_floating a = true
                         /\ k = (onAction, act_id a, act_payload a))
            (clicks out).
Proof.
  cbv zeta. split.
  - destruct (subs_LayoutRenderer_takeover config onAction data loading error)
      as [E|E]; rewrite E; [|constructor].
    rewrite subs_layout_view.
    induction (flat_map preorder_sections (cfg_sections config)) as [|x r IH];
      simpl; [constructor|].
    apply Forall_app. split; [apply dispatched_forwarding | exact IH].
  - assert (P : Forall (fun k =>
               exists a, In a (actions_of config) /\ is_floating a = true
                         /\ k = (onAction, act_id a, act_payload a))
               (clicks (layout_view config onAction data))).
    { rewrite clicks_layout_view. apply Forall_forall. intros k Hk.
      apply in_map_iff in Hk. destruct Hk as (a & <- & Ha).
      apply filter_In in Ha. exists a. tauto. }
    unfold LayoutRenderer.
    destruct (truthy_opt (fun b : bool => b) loading); [constructor|].
    destruct error as [e|]; [|exact P].
    destruct (truthy_string e); [|exact P].
    unfold error_view, clicks, observe. simpl. constructor.
Qed.

(** ** What the item sub-renderers show *)

Lemma observe_Text {A : Type} (f : @VNode Handler -> list A) x :
  observe f (Text x) = f (Text x).
Proof.
  unfold observe. simpl. apply app_nil_r.
Qed.

(** Push an observation through the elements of a tree. *)
Ltac obs :=
  repeat first
    [ rewrite observe_Elem
    | rewrite observe_Text
    | rewrite observe_when_string by reflexivity
    | rewrite observe_when_nonempty by reflexivity
    | progress cbn [flat_map app text_of click_of image_of attr find fst snd
                    className String.eqb Ascii.eqb Bool.eqb] ].

(** Split on whether an optional string is shown. *)
Ltac shown_case o :=
  let E := fresh "E" in
  match goal with
  | |- context [shown o] =>
      destruct (shown_cases o) as [[E _]|(? & _ & _ & E)]; rewrite E; clear E
  | _ => idtac
  end.

Ltac item_cases item :=
  shown_case (item_image item); shown_case (item_subtitle item);
  shown_case (item_badge item); shown_case (item_description item);
  destruct (item_actions item) as [[|? ?]|]; obs.

Lemma observe_rendered_list {A B : Type} (f : @VNode Handler -> list A)
      (render : B -> @VNode Handler) (g : B -> list A) (l : list B) :
  (forall x, observe f (render x) = g x) ->
  flat_map (observe f) (map render l) = flat_map g l.
Proof.
  intros G. induction l as [|a r IH]; simpl; [reflexivity|].
  now rewrite G, IH.
Qed.

Lemma texts_CardGrid_buttons onAction l :
  flat_map (observe text_of) (map (CardGrid_button onAction) l)
  = map ca_label l.
Proof.
  transitivity (flat_map (fun a : ContentAction => [ca_label a]) l);
    [|exact (flat_map_single ca_label l)].
  apply observe_rendered_list. intros a. unfold CardGrid_button. now obs.
Qed.

Lemma texts_ListSection_buttons onAction l :
  flat_map (observe text_of) (map (ListSection_button onAction) l)
  = map ca_label l.
Proof.
  transitivity (flat_map (fun a : ContentAction => [ca_label a]) l);
    [|exact (flat_map_single ca_label l)].
  apply observe_rendered_list. intros a. unfold ListSection_button. now obs.
Qed.

Lemma images_CardGrid_buttons onAction l :
  flat_map (observe image_of) (map (CardGrid_button onAction) l) = [].
Proof.
  transitivity (flat_map (fun _ : ContentAction => @nil (string * string)) l);
    [|exact (flat_map_none l)].
  apply observe_rendered_list. intros a. unfold CardGrid_button. now obs.
Qed.

Lemma images_ListSection_buttons onAction l :
  flat_map (observe image_of) (map (ListSection_button onAction) l) = [].
Proof.
  transitivity (flat_map (fun _ : ContentAction => @nil (string * string)) l);
    [|exact (flat_map_none l)].
  apply observe_rendered_list. intros a. unfold ListSection_button. now obs.
Qed.

Lemma clicks_CardGrid_buttons onAction l :
  flat_map (observe click_of) (map (CardGrid_button onAction) l)
  = map (fun a => (onAction, ca_id a, ca_payload a)) l.
Proof.
  transitivity (flat_map (fun a : ContentAction => [(onAction, ca_id a, ca_payload a)]) l);
    [|exact (flat_map_single (fun a => (onAction, ca_id a, ca_payload a)) l)].
  apply observe_rendered_list. intros a. unfold CardGrid_button. now obs.
Qed.

Lemma clicks_ListSection_buttons onAction l :
  flat_map (observe click_of) (map (ListSection_button onAction) l)
  = map (fun a => (onAction, ca_id a, ca_payload a)) l.
Proof.
  transitivity (flat_map (fun a : ContentAction => [(onAction, ca_id a, ca_payload a)]) l);
    [|exact (flat_map_single (fun a => (onAction, ca_id a, ca_payload a)) l)].
  apply observe_rendered_list. intros a. unfold ListSection_button. now obs.
Qed.

Lemma texts_CardGrid_card onAction (item : ContentItem) :
  observe text_of (CardGrid_card onAction item)
  = item_title item :: shown (item_subtitle item) ++ shown (item_badge item)
    ++ shown (item_description item) ++ map ca_label (actions_of_item item).
Proof.
  unfold CardGrid_card, actions_of_item. obs. item_cases item.
  all: rewrite ?texts_CardGrid_buttons, ?app_nil_r; reflexivity.
Qed.

Lemma texts_ListSection_row onAction cls (item : ContentItem) :
  observe text_of (ListSection_row onAction cls item)
  = item_title item :: shown (item_subtitle item)
    ++ shown (item_description item) ++ shown (item_badge item)
    ++ map ca_label (actions_of_item item).
Proof.
  unfold ListSection_row, actions_of_item. obs. item_cases item.
  all: rewrite ?texts_ListSection_buttons, ?app_nil_r; reflexivity.
Qed.

Lemma images_CardGrid_card onAction (item : ContentItem) :
  observe image_of (CardGrid_card onAction item)
  = map (fun src => (src, item_title item)) (shown (item_image item)).
Proof.
  unfold CardGrid_card. obs. item_cases item.
  all: rewrite ?images_CardGrid_buttons, ?app_nil_r; reflexivity.
Qed.

Lemma images_ListSection_row onAction cls (item : ContentItem) :
  observe image_of (ListSection_row onAction cls item) = [].
Proof.
  unfold ListSection_row. obs. item_cases item.
  all: rewrite ?images_ListSection_buttons, ?app_nil_r; reflexivity.
Qed.

Lemma clicks_CardGrid_card onAction (item : ContentItem) :
  observe click_of (CardGrid_card onAction item)
  = map (fun a => (onAction, ca_id a, ca_payload a)) (actions_of_item item).
Proof.
  unfold CardGrid_card, actions_of_item. obs. item_cases item.
  all: rewrite ?clicks_CardGrid_buttons, ?app_nil_r; reflexivity.
Qed.

Lemma clicks_ListSection_row onAction cls (item : ContentItem) :
  observe click_of (ListSection_row onAction cls item)
  = map (fun a => (onAction, ca_id a, ca_payload a)) (actions_of_item item).
Proof.
  unfold ListSection_row, actions_of_item. obs. item_cases item.
  all: rewrite ?clicks_ListSection_buttons, ?app_nil_r; reflexivity.
Qed.

(** An observation of a container of rendered items is the observations of
    the items, in order, when the container itself shows nothing. *)
Lemma observe_container {A B : Type} (f : @VNode Handler -> list A)
      (render : B -> @VNode Handler) (g : B -> list A) cls (items : list B) :
  f (Elem "div" [className cls] (map render items)) = [] ->
  (forall item, observe f (render item) = g item) ->
  observe f (Elem "div" [className cls] (map render items)) = flat_map g items.
Proof.
  intros R G. rewrite observe_Elem, R. cbn [app].
  now apply observe_rendered_list.
Qed.

(** X3.  Given its items, [CardGrid] shows for each item, in order, the
    title, then the subtitle, the badge and the description, each only when
    it is a non-empty string, then the labels of its actions; [ListSection]
    shows the same with the description before the badge.  Nothing else is
    shown: no icon, no metadata, no text of the components' own. *)
Theorem item_texts (p : @Props Handler) (items : list ContentItem) :
  p_items p = Some items ->
  (exists out,
      CardGrid p = Some out
      /\ texts out
         = flat_map
             (fun item =>
                item_title item :: shown (item_subtitle item)
                ++ shown (item_badge item) ++ shown (item_description item)
                ++ map ca_label (actions_of_item item))
             items)
  /\ (exists out,
         ListSection p = Some out
         /\ texts out
            = flat_map
                (fun item =>
                   item_title item :: shown (item_subtitle item)
                   ++ shown (item_description item) ++ shown (item_badge item)
                   ++ map ca_label (actions_of_item item))
                items).
Proof.
  intros E. unfold CardGrid, ListSection. rewrite E.
  split; eexists; (split; [reflexivity|]);
    change (@texts Handler) with (observe (@text_of Handler));
    apply observe_container; try reflexivity; intros item.
  - apply texts_CardGrid_card.
  - apply texts_ListSection_row.
Qed.

(** X4.  [CardGrid] renders an image for exactly the items whose [image] is
    a non-empty string, with the item's title as [alt]; [ListSection]
    renders no image, whatever the items hold. *)
Theorem item_images (p : @Props Handler) (items : list ContentItem) :
  p_items p = Some items ->
  (exists out,
      CardGrid p = Some out
      /\ images out
         = flat_map
             (fun item =>
                map (fun src => (src, item_title item))
                    (shown (item_image item)))
             items)
  /\ (exists out, ListSection p = Some out /\ images out = []).
Proof.
  intros E. unfold CardGrid, ListSection. rewrite E.
  split; eexists; (split; [reflexivity|]); unfold images.
  - apply observe_container; [reflexivity|]. intros item.
    apply images_CardGrid_card.
  - rewrite <- (flat_map_none (B := string * string) items).
    apply observe_container; [reflexivity|]. intros item.
    apply images_ListSection_row.
Qed.

(** X5.  In [CardGrid] and in [ListSection], the [onClick]s are those of
    the items' actions, in item order then action order; each calls the
    [onAction] prop with the action's id and its payload as they are. An
    item without actions, or with an empty [actions], has none. *)
Theorem item_clicks (p : @Props Handler) (items : list ContentItem) :
  p_items p = Some items ->
  let expected :=
    flat_map
      (fun item =>
         map (fun a => (p_onAction p, ca_id a, ca_payload a))
             (actions_of_item item))
      items in
  (exists out, CardGrid p = Some out /\ clicks out = expected)
  /\ (exists out, ListSection p = Some out /\ clicks out = expected).
Proof.
  intros E expected. subst expected. unfold CardGrid, ListSection. rewrite E.
  split; eexists; (split; [reflexivity|]); unfold clicks;
    apply observe_container; try reflexivity; intros item.
  - apply clicks_CardGrid_card.
  - apply clicks_ListSection_row.
Qed.

(** ** The dispatcher and the sub-renderers together *)

Lemma keys_CardGrid_cards onAction (items : list ContentItem) :
  flat_map key_of (map (CardGrid_card onAction) items) = map item_id items.
Proof.
  rewrite flat_map_map. apply flat_map_single.
Qed.

Lemma keys_ListSection_rows onAction cls (items : list ContentItem) :
  flat_map key_of (map (ListSection_row onAction cls) items)
  = map item_id items.
Proof.
  rewrite flat_map_map. apply flat_map_single.
Qed.

(** X6.  Whatever the section holds, the props the dispatcher builds for
    cards and list never make [CardGrid] or [ListSection] fail on a missing
    [items]: the sub-renderer returns its container, with one child per
    item of [content.items], keyed by the item's id, in order. *)
Theorem dispatched_items_render section onAction data :
  (sec_type section = "cards" ->
   exists p out,
     renderSectionByType section onAction data (sec_type section)
     = Sub cCardGrid p
     /\ CardGrid p = Some out
     /\ flat_map key_of (kids_of out) = map item_id (items_or_empty section)
     /\ List.length (kids_of out) = List.length (items_or_empty section))
  /\ (sec_type section = "list" ->
      exists p out,
        renderSectionByType section onAction data (sec_type section)
        = Sub cListSection p
        /\ ListSection p = Some out
        /\ flat_map key_of (kids_of out) = map item_id (items_or_empty section)
        /\ List.length (kids_of out) = List.length (items_or_empty section)).
Proof.
  split; intros ->; unfold renderSectionByType;
    cbn [String.eqb Ascii.eqb Bool.eqb]; do 2 eexists;
    (split; [reflexivity|]).
  - unfold CardGrid. cbn [p_items p_onAction]. split; [reflexivity|].
    cbn [kids_of]. split; [apply keys_CardGrid_cards | apply length_map].
  - unfold ListSection. cbn [p_items p_onAction]. split; [reflexivity|].
    cbn [kids_of]. split; [apply keys_ListSection_rows | apply length_map].
Qed.

(** X7.  [RecommendationsSection] shows its title, when non-empty, and a
    fixed line; it shows no item, no image and has no [onClick].  The
    dispatcher hands it no title, so a recommendations section renders the
    fixed line alone, whatever its items are. *)
Theorem recommendations_show_no_item section onAction data (p : @Props Handler) :
  (exists out,
      RecommendationsSection p = Some out
      /\ texts out = shown (p_title p) ++ ["RecommendationsSection placeholder"]
      /\ images out = [] /\ clicks out = [])
  /\ (exists q out,
         renderSectionByType section onAction data "recommendations"
         = Sub cRecommendationsSection q
         /\ p_items q = Some (items_or_empty section)
         /\ RecommendationsSection q = Some out
         /\ texts out = ["RecommendationsSection placeholder"]).
Proof.
  split.
  - unfold RecommendationsSection. eexists. split; [reflexivity|].
    change (@texts Handler) with (observe (@text_of Handler)).
    unfold images, clicks. obs.
    destruct (shown_cases (p_title p)) as [[E _]|(x & _ & _ & E)]; rewrite E;
      obs; repeat split.
  - unfold renderSectionByType. cbn [String.eqb Ascii.eqb Bool.eqb].
    do 2 eexists. split; [reflexivity|]. repeat split.
Qed.

(** ** The action bar container *)

(** X8.  With no takeover state, the output has the action bar's container
    exactly when [config.actions] is a non-empty array: the test comes
    before the filter, so actions that are all at top or bottom leave an
    empty container, while an empty or absent array leaves none. *)
Theorem action_bar_presence config onAction data loading error :
  truthy_opt (fun b : bool => b) loading = false ->
  truthy_opt truthy_string error = false ->
  exists attrs sections_part bar,
    LayoutRenderer config onAction data loading error
    = Elem "div" attrs [sections_part; bar]
    /\ (actions_of config = [] -> bar = Nothing)
    /\ (actions_of config <> [] ->
        bar = ActionBar (filter is_floating (actions_of config)) onAction
        /\ (filter is_floating (actions_of config) = [] ->
            bar = Elem "div"
                    [className
                       "fixed bottom-6 right-6 flex gap-2 flex-col items-end"]
                    [])).
Proof.
  intros Hl He.
  rewrite (LayoutRenderer_page config onAction data loading error Hl He).
  unfold layout_view, actions_of, when_nonempty. do 3 eexists.
  split; [reflexivity|].
  destruct (cfg_actions config) as [[|a r]|].
  - split; [reflexivity|]. intros N. now contradiction N.
  - split; [discriminate|]. intros _. split; [reflexivity|].
    intros F. unfold ActionBar. now rewrite F.
  - split; [reflexivity|]. intros N. now contradiction N.
Qed.

(** ** Headings *)

Lemma is_heading_dispatched section onAction data type :
  is_heading (renderSectionByType section onAction data type) = false.
Proof.
  destruct (renderSectionByType_cases section onAction data type)
    as [(c & p & E)|E]; rewrite E; reflexivity.
Qed.

Lemma is_heading_children_part onAction data section :
  is_heading (children_part onAction data section) = false.
Proof.
  unfold children_part. now destruct (children_of section).
Qed.

(** X9.  A section element has three children.  It has an [<h2>] among them
    exactly when the title is a non-empty string and the type is neither
    header nor hero; with an absent or empty title the first child renders
    nothing, for every type. *)
Theorem heading_exactly_when section onAction data :
  let kids := kids_of (SectionRenderer onAction data section) in
  List.length kids = 3
  /\ existsb is_heading kids
     = truthy_opt truthy_string (sec_title section)
       && negb (String.eqb (sec_type section) "header")
       && negb (String.eqb (sec_type section) "hero")
  /\ (truthy_opt truthy_string (sec_title section) = false ->
      nth_error kids 0 = Some Nothing).
Proof.
  cbv zeta. rewrite SectionRenderer_eq. cbn [kids_of existsb nth_error].
  rewrite is_heading_dispatched, is_heading_children_part.
  unfold section_heading, when_string, truthy_opt.
  split; [reflexivity|].
  destruct (sec_title section) as [t|]; [|now split].
  destruct (truthy_string t); [|now split].
  split; [|discriminate].
  destruct (String.eqb (sec_type section) "header");
    destruct (String.eqb (sec_type section) "hero"); reflexivity.
Qed.

(** ** The fields the renderer reads *)

Lemma items_or_empty_rendered_fields s :
  items_or_empty (rendered_fields s) = items_or_empty s.
Proof.
  destruct s as [i t ti su co la cl sp vi ch]. reflexivity.
Qed.

Lemma SectionRenderer_rendered_fields onAction data s :
  SectionRenderer onAction data (rendered_fields s)
  = SectionRenderer onAction data s.
Proof.
  induction s as [s IH] using LayoutSection_ind.
  rewrite !SectionRenderer_eq.
  assert (K : children_part onAction data (rendered_fields s)
              = children_part onAction data s).
  { unfold children_part.
    assert (M : map (SectionRenderer onAction data)
                    (map rendered_fields (children_of s))
                = map (SectionRenderer onAction data) (children_of s))
      by (induction IH as [|c r Hc _ IHr]; cbn [map];
          [reflexivity | now rewrite Hc, IHr]).
    assert (C : children_of (rendered_fields s)
                = map rendered_fields (children_of s))
      by (destruct s as [i t ti su co la cl sp vi [[|c r]|]]; reflexivity).
    rewrite C. destruct (children_of s) as [|c r]; [reflexivity|].
    cbn [map] in *. now rewrite M. }
  rewrite K.
  assert (R : renderSectionByType (rendered_fields s) onAction data
                (sec_type (rendered_fields s))
              = renderSectionByType s onAction data (sec_type s)).
  { unfold renderSectionByType. rewrite items_or_empty_rendered_fields.
    destruct s as [i t ti su co la cl sp vi ch]; reflexivity. }
  rewrite R.
  destruct s as [i t ti su co la cl sp vi ch]; reflexivity.
Qed.

(** X10.  The output depends on a section only through its id, type, title,
    [content.items], layout, columns, spacing and children, at every depth:
    subtitle, [content.template], [content.dataSource] and visibility are
    never read, and a [children] that is an empty array renders as an absent
    one.  Of the config, only [sections] and [actions] are read: mode,
    title, description and metadata never reach the output. *)
Theorem unread_fields_do_not_matter onAction data s :
  SectionRenderer onAction data (rendered_fields s)
  = SectionRenderer onAction data s
  /\ (forall config mode title description metadata loading error,
         LayoutRenderer
           (mkLayoutConfig mode title description
              (map rendered_fields (cfg_sections config))
              (cfg_actions config) metadata)
           onAction data loading error
         = LayoutRenderer config onAction data loading error).
Proof.
  split; [apply SectionRenderer_rendered_fields|].
  intros config mode title description metadata loading error.
  unfold LayoutRenderer, layout_view. cbn [cfg_sections cfg_actions].
  rewrite map_map.
  rewrite (map_ext _ _ (fun x => SectionRenderer_rendered_fields onAction data x)).
  reflexivity.
Qed.

(** ** The grid the dispatcher asks for *)

(** X11.  The columns and the spacing the dispatcher hands [CardGrid] are
    always present and truthy: the section's own when they are truthy, 3 and
    ["normal"] otherwise.  So [CardGrid]'s default parameters never apply
    to a dispatched grid, and its class never names 0 or NaN columns. *)
Theorem dispatched_grid_is_truthy section onAction data :
  exists p c sp,
    renderSectionByType section onAction data "cards" = Sub cCardGrid p
    /\ p_columns p = Some c /\ truthy_number c = true
    /\ p_spacing p = Some sp /\ truthy_string sp = true
    /\ (truthy_opt truthy_number (sec_columns section) = true ->
        sec_columns section = Some c)
    /\ (truthy_opt truthy_string (sec_spacing section) = true ->
        sec_spacing section = Some sp)
    /\ CardGrid p
       = Some (Elem "div" [className (CardGrid_gridClass c sp)]
                 (map (CardGrid_card onAction) (items_or_empty section))).
Proof.
  unfold renderSectionByType. cbn [String.eqb Ascii.eqb Bool.eqb].
  do 3 eexists. split; [reflexivity|]. cbn [p_columns p_spacing].
  split; [reflexivity|]. split.
  { unfold or_default. destruct (sec_columns section) as [c|]; [|reflexivity].
    destruct (truthy_number c) eqn:E; [exact E | reflexivity]. }
  split; [reflexivity|]. split.
  { unfold or_default. destruct (sec_spacing section) as [sp|]; [|reflexivity].
    destruct (truthy_string sp) eqn:E; [exact E | reflexivity]. }
  split.
  { unfold or_default, truthy_opt.
    destruct (sec_columns section) as [c|]; [|discriminate].
    now intros ->. }
  split.
  { unfold or_default, truthy_opt.
    destruct (sec_spacing section) as [sp|]; [|discriminate].
    now intros ->. }
  reflexivity.
Qed.

End MoreFacts.

(** * The further properties on the sample inputs *)

Lemma one_content_per_section_witness :
  map fst (subs (LayoutRenderer sample_config no_callback None None None))
  = [cCardGrid; cListSection; cTimelineSection; cMapSection; cHeaderSection]
  /\ sectionIds (LayoutRenderer sample_config no_callback None None None)
     = ["s1"; "s1a"; "s1b"; "s2"; "s3"].
Proof.
  destruct (one_content_per_section sample_config no_callback None None None
              eq_refl eq_refl) as (S & I & _).
  split; [rewrite S; reflexivity | exact I].
Defined.

Lemma callback_and_data_forwarding_witness :
  Forall (fun cp : Component * Props =>
            p_onAction (snd cp) = no_callback
            /\ p_data (snd cp)
               = if takes_data (fst cp) then Some [("zoom", JNum 12)] else None)
         (subs (LayoutRenderer sample_config no_callback
                  (Some [("zoom", JNum 12)]) None None)).
Proof.
  exact (proj1 (callback_and_data_forwarding sample_config no_callback
                  (Some [("zoom", JNum 12)]) None None)).
Defined.

Lemma item_texts_witness :
  p_items sights_props = Some [eiffel_tower; louvre]
  /\ (exists out,
         CardGrid sights_props = Some out
         /\ texts out
            = ["Eiffel Tower"; "Louvre"; "Art"; "Closed on Tuesdays"; "Book"])
  /\ (exists out,
         ListSection sights_props = Some out
         /\ texts out
            = ["Eiffel Tower"; "Louvre"; "Closed on Tuesdays"; "Art"; "Book"]).
Proof.
  split; [reflexivity|].
  exact (item_texts sights_props eq_refl).
Defined.

Lemma item_images_witness :
  p_items sights_props = Some [eiffel_tower; louvre]
  /\ (exists out,
         CardGrid sights_props = Some out
         /\ images out = [("/img/louvre.jpg", "Louvre")])
  /\ (exists out, ListSection sights_props = Some out /\ images out = []).
Proof.
  split; [reflexivity|].
  exact (item_images sights_props eq_refl).
Defined.

Lemma item_clicks_witness :
  p_items sights_props = Some [eiffel_tower; louvre]
  /\ exists out,
      CardGrid sights_props = Some out
      /\ clicks out
         = [(no_callback, "book", Some [("museum", JStr "louvre")])].
Proof.
  split; [reflexivity|].
  exact (proj1 (item_clicks sights_props eq_refl)).
Defined.

Lemma dispatched_items_render_witness :
  sec_type (sights_section "list") = "list"
  /\ exists p out,
      renderSectionByType (sights_section "list") no_callback None "list"
      = Sub cListSection p
      /\ ListSection p = Some out
      /\ flat_map key_of (kids_of out) = ["i1"; "i2"]
      /\ List.length (kids_of out) = 2.
Proof.
  split; [reflexivity|].
  exact (proj2 (dispatched_items_render (sights_section "list") no_callback
                  None) eq_refl).
Defined.

Lemma action_bar_presence_witness :
  actions_of (mkLayoutConfig "guide" "Rome" None [] (Some [action_at "a" "top"])
                None)
  <> []
  /\ exists attrs sections_part,
      LayoutRenderer
        (mkLayoutConfig "guide" "Rome" None [] (Some [action_at "a" "top"])
           None)
        no_callback None None None
      = Elem "div" attrs
          [sections_part;
           Elem "div"
             [className "fixed bottom-6 right-6 flex gap-2 flex-col items-end"]
             []].
Proof.
  assert (N : actions_of (mkLayoutConfig "guide" "Rome" None []
                            (Some [action_at "a" "top"]) None) <> [])
    by discriminate.
  split; [exact N|].
  destruct (action_bar_presence
              (mkLayoutConfig "guide" "Rome" None []
                 (Some [action_at "a" "top"]) None)
              no_callback None None None eq_refl eq_refl)
    as (attrs & part & bar & E & _ & B).
  destruct (B N) as (_ & F). rewrite (F eq_refl) in E.
  exists attrs, part. exact E.
Defined.

Lemma heading_exactly_when_witness :
  nth_error
    (kids_of (SectionRenderer no_callback None (titled_section "s1" "cards" "")))
    0
  = Some Nothing.
Proof.
  exact (proj2 (proj2 (heading_exactly_when (titled_section "s1" "cards" "")
                         no_callback None)) eq_refl).
Defined.
